(** * Akash Autopilot: guardrail and audit core

    A shallow embedding of the policy guardrails ([src/agent/policy.py]),
    the SQLite store ([src/database/db.py]) and the action path of the
    agent loop ([src/agent/loop.py]), with the properties the design
    document states about them.

    Conventions of the embedding.
    - Python values that come out of [json.loads] are the type [value];
      a [dict] is an association list in insertion order (the keys of a
      parsed document are unique).  A number written with a fraction or
      an exponent, and the [NaN] and [Infinity] that [json.loads] also
      reads, is a binary64 [float]; any other number is an unbounded
      [int].
    - A Python exception is the [Raise] outcome of [result].
    - Instants are integers, in microseconds.  The store keeps
      [datetime.isoformat()] strings and SQLite compares them as text; for
      the fixed-width ISO format that order is the order of the instants.
    - [datetime.utcnow()] is the next reading of a clock [nat -> Z]; the
      world counts the readings taken so far.
    - Logging is not modelled. *)

From Stdlib Require Import Floats.PrimFloat.
From Stdlib Require Floats.SpecFloat Floats.FloatOps.
From Stdlib Require Import ZArith Lia Bool Sorting.Sorted Sorting.Permutation.
From stdpp Require Import base strings list pretty.

Set Warnings "-register-all".

Open Scope string_scope.
Open Scope list_scope.
Open Scope Z_scope.

(** ** Python values *)

Module Py.

(** A [float] comes with the text [str] prints for it ([2.5], [1e+22],
    [nan], [inf]): the shortest digits that read back as the same number,
    which the embedding takes as given instead of computing. *)
Inductive value : Type :=
| PyNone
| PyBool (b : bool)
| PyInt (n : Z)
| PyFloat (x : float) (shown : string)
| PyStr (s : string)
| PyList (l : list value)
| PyDict (d : list (string * value)).

Inductive exn : Type :=
| TypeError
| AttributeError
| KeyError
| OverflowError
| External (msg : string).

Inductive result (A : Type) : Type :=
| Ok (a : A)
| Raise (e : exn).

Arguments Ok {A} a.
Arguments Raise {A} e.

Definition rbind {A B} (m : result A) (f : A -> result B) : result B :=
  match m with
  | Ok a => f a
  | Raise e => Raise e
  end.

(** [bool(v)] *)
Definition truthy (v : value) : bool :=
  match v with
  | PyNone => false
  | PyBool b => b
  | PyInt n => negb (n =? 0)
  | PyFloat x _ => negb (PrimFloat.eqb x 0)
  | PyStr s => negb (String.eqb s "")
  | PyList l => match l with [] => false | _ => true end
  | PyDict d => match d with [] => false | _ => true end
  end.

(** [bool(s)] for an [Optional[str]] *)
Definition truthy_str (s : option string) : bool :=
  match s with
  | Some s => negb (String.eqb s "")
  | None => false
  end.

(** [d.get(k)] on the entries of a dict, [None] when the key is absent *)
Fixpoint dict_get (d : list (string * value)) (k : string) : option value :=
  match d with
  | [] => None
  | (k', v) :: d' => if String.eqb k' k then Some v else dict_get d' k
  end.

(** [k in d] *)
Definition dict_has (d : list (string * value)) (k : string) : bool :=
  match dict_get d k with Some _ => true | None => false end.

(** [d.get(k, dflt)] on the entries of a dict *)
Definition dict_get_or (d : list (string * value)) (k : string) (dflt : value)
    : value :=
  match dict_get d k with
  | Some x => x
  | None => dflt
  end.

(** [v.get(k, dflt)]: only a dict has the method *)
Definition get (v : value) (k : string) (dflt : value) : result value :=
  match v with
  | PyDict d => Ok (dict_get_or d k dflt)
  | _ => Raise AttributeError
  end.

(** [v == s] for a string literal [s] *)
Definition eq_str (v : value) (s : string) : bool :=
  match v with
  | PyStr s' => String.eqb s' s
  | _ => false
  end.

(** The integer an [int] stands for in [<], [>] and [+] against an [int];
    [bool] is a subclass of [int].  A [float] is compared and added as a
    float; no other type can be ([TypeError]). *)
Definition number_of (v : value) : option Z :=
  match v with
  | PyInt n => Some n
  | PyBool b => Some (Z.b2z b)
  | _ => None
  end.

(** What arithmetic leaves: an [int] or a [float]. *)
Inductive num : Type :=
| NInt (n : Z)
| NFloat (x : float).

(** An [int] as the float nearest to it (ties to even), the conversion
    of [int + float]; an [int] too large for a float raises. *)
Definition float_of_int (n : Z) : result float :=
  let x := FloatOps.SF2Prim
             (SpecFloat.binary_normalize FloatOps.prec FloatOps.emax n 0 false) in
  if PrimFloat.is_infinity x then Raise OverflowError else Ok x.

(** [total + v] for a running total *)
Definition add (total : num) (v : value) : result num :=
  match v with
  | PyFloat x _ =>
      match total with
      | NInt a => rbind (float_of_int a) (fun fa => Ok (NFloat (PrimFloat.add fa x)))
      | NFloat y => Ok (NFloat (PrimFloat.add y x))
      end
  | _ =>
      match number_of v with
      | Some b =>
          match total with
          | NInt a => Ok (NInt (a + b))
          | NFloat y =>
              rbind (float_of_int b) (fun fb => Ok (NFloat (PrimFloat.add y fb)))
          end
      | None => Raise TypeError
      end
  end.

(** [str(v)] for the hashable values; [None] for a list or a dict, which
    cannot be looked up in a set. *)
Definition hashable_str (v : value) : option string :=
  match v with
  | PyNone => Some "None"
  | PyBool true => Some "True"
  | PyBool false => Some "False"
  | PyInt n => Some (pretty n)
  | PyFloat _ shown => Some shown
  | PyStr s => Some s
  | PyList _ | PyDict _ => None
  end.

(** [v[k]] for a string key: a missing key of a dict raises [KeyError];
    no other modelled type can be indexed by a string. *)
Definition getitem (v : value) (k : string) : result value :=
  match v with
  | PyDict d =>
      match dict_get d k with
      | Some x => Ok x
      | None => Raise KeyError
      end
  | _ => Raise TypeError
  end.

(** The elements a [for] loop visits: the items of a list, the keys of a
    dict, the characters of a string; anything else is not iterable. *)
Definition iterate (v : value) : result (list value) :=
  match v with
  | PyList l => Ok l
  | PyDict d => Ok (map (fun kv => PyStr (fst kv)) d)
  | PyStr s => Ok (map (fun c => PyStr (String c EmptyString)) (String.list_ascii_of_string s))
  | _ => Raise TypeError
  end.

End Py.

Import Py.

Notation "'let+' x ':=' m 'in' k" := (rbind m (fun x => k))
  (at level 10, x name, m at level 100, k at level 200).

(** ** The store ([AutopilotDB]) *)

Module AutopilotDB.

(** A row of [action_ledger].  [details] holds the JSON text of the
    payload, kept here as the value it encodes; the [created_at] column
    is read by no query and is left out. *)
Record ActionRow : Type := {
  a_id : Z;
  a_timestamp : Z;
  a_action_type : string;
  a_deployment_id : option string;
  a_details : option value;
  a_status : string;
  a_error : option string
}.

(** A row of [cooldowns]. *)
Record CooldownRow : Type := {
  c_id : Z;
  c_action_type : string;
  c_deployment_id : option string;
  c_expires_at : Z
}.

(** A row of [deployment_state]. *)
Record DeploymentRow : Type := {
  d_deployment_id : string;
  d_name : string;
  d_status : string;
  d_replicas : Z;
  d_last_checked : Z;
  d_metrics : option value;
  d_updated_at : Z
}.

(** The tables behind one connection; the two [_seq] fields are the
    AUTOINCREMENT counters (the last id handed out). *)
Record Conn : Type := {
  action_ledger : list ActionRow;
  action_ledger_seq : Z;
  cooldowns : list CooldownRow;
  cooldowns_seq : Z;
  deployment_state : list DeploymentRow
}.

Record World : Type := {
  conn : Conn;
  clock : nat -> Z;
  reads : nat
}.

Definition usec : Z := 1000000.
Definition one_hour : Z := 3600 * usec.
Definition one_day : Z := 24 * one_hour.

(** Computations over the world that may raise; what was committed before
    an exception stays committed. *)
Definition M (A : Type) : Type := World -> result A * World.

Definition ret {A} (a : A) : M A := fun w => (Ok a, w).

Definition bind {A B} (m : M A) (f : A -> M B) : M B :=
  fun w =>
    match m w with
    | (Ok a, w') => f a w'
    | (Raise e, w') => (Raise e, w')
    end.

Definition lift {A} (r : result A) : M A := fun w => (r, w).

(** [try: m except Exception as e: h e] *)
Definition try_except {A} (m : M A) (h : exn -> M A) : M A :=
  fun w =>
    match m w with
    | (Ok a, w') => (Ok a, w')
    | (Raise e, w') => h e w'
    end.

(** The world after one more reading of the clock. *)
Definition tick (w : World) : World :=
  {| conn := conn w; clock := clock w; reads := S (reads w) |}.

(** [datetime.utcnow()] *)
Definition utcnow : M Z :=
  fun w => (Ok (clock w (reads w)), tick w).

Definition query {A} (f : Conn -> A) : M A := fun w => (Ok (f (conn w)), w).

Definition execute (f : Conn -> Conn) : M unit :=
  fun w => (Ok tt, {| conn := f (conn w); clock := clock w; reads := reads w |}).

Module Import Notations.
Notation "'let*' x ':=' m 'in' k" := (bind m (fun x => k))
  (at level 10, x name, m at level 100, k at level 200).
End Notations.

(** *** Action ledger *)

Definition insert_action (timestamp : Z) (action_type : string)
    (deployment_id : option string) (details : value) (status : string)
    (error : option string) (c : Conn) : Conn :=
  let lastrowid := action_ledger_seq c + 1 in
  {| action_ledger :=
       action_ledger c ++
       [ {| a_id := lastrowid;
            a_timestamp := timestamp;
            a_action_type := action_type;
            a_deployment_id := deployment_id;
            a_details := if truthy details then Some details else None;
            a_status := status;
            a_error := error |} ];
     action_ledger_seq := lastrowid;
     cooldowns := cooldowns c;
     cooldowns_seq := cooldowns_seq c;
     deployment_state := deployment_state c |}.

Definition log_action (action_type : string) (deployment_id : option string)
    (details : value) (status : string) (error : option string) : M Z :=
  let* timestamp := utcnow in
  let* _ := execute (insert_action timestamp action_type deployment_id details
                                   status error) in
  query action_ledger_seq.

(** [UPDATE action_ledger SET status = ?, error = ? WHERE id = ?] *)
Definition set_status (action_id : Z) (status : string) (error : option string)
    (r : ActionRow) : ActionRow :=
  if a_id r =? action_id then
    {| a_id := a_id r;
       a_timestamp := a_timestamp r;
       a_action_type := a_action_type r;
       a_deployment_id := a_deployment_id r;
       a_details := a_details r;
       a_status := status;
       a_error := error |}
  else r.

Definition update_ledger (action_id : Z) (status : string) (error : option string)
    (c : Conn) : Conn :=
  {| action_ledger := map (set_status action_id status error) (action_ledger c);
     action_ledger_seq := action_ledger_seq c;
     cooldowns := cooldowns c;
     cooldowns_seq := cooldowns_seq c;
     deployment_state := deployment_state c |}.

Definition update_action_status (action_id : Z) (status : string)
    (error : option string) : M unit :=
  execute (update_ledger action_id status error).

(** [SELECT COUNT( * ) FROM action_ledger WHERE timestamp >= ? [AND action_type = ?]];
    the type filter is applied only when [action_type] is truthy. *)
Definition counted (since : Z) (action_type : option string) (r : ActionRow) : bool :=
  match action_type with
  | Some t =>
      if negb (String.eqb t "")
      then (since <=? a_timestamp r) && String.eqb (a_action_type r) t
      else since <=? a_timestamp r
  | None => since <=? a_timestamp r
  end.

Definition select_count_actions (since : Z) (action_type : option string)
    (c : Conn) : Z :=
  Z.of_nat (length (List.filter (counted since action_type) (action_ledger c))).

Definition count_actions_since (since : Z) (action_type : option string) : M Z :=
  query (select_count_actions since action_type).

(** *** Cooldowns *)

Definition insert_cooldown (action_type : string) (deployment_id : option string)
    (expires_at : Z) (c : Conn) : Conn :=
  {| action_ledger := action_ledger c;
     action_ledger_seq := action_ledger_seq c;
     cooldowns :=
       cooldowns c ++
       [ {| c_id := cooldowns_seq c + 1;
            c_action_type := action_type;
            c_deployment_id := deployment_id;
            c_expires_at := expires_at |} ];
     cooldowns_seq := cooldowns_seq c + 1;
     deployment_state := deployment_state c |}.

Definition set_cooldown (action_type : string) (cooldown_seconds : Z)
    (deployment_id : option string) : M unit :=
  let* now := utcnow in
  let expires_at := now + cooldown_seconds * usec in
  execute (insert_cooldown action_type deployment_id expires_at).

(** The WHERE clause of [check_cooldown].  With a truthy [deployment_id]
    the row must carry that same id (a NULL column never equals a bound
    string); otherwise the row's deployment is not looked at. *)
Definition in_force (now : Z) (action_type : string) (deployment_id : option string)
    (r : CooldownRow) : bool :=
  if truthy_str deployment_id then
    String.eqb (c_action_type r) action_type
    && match c_deployment_id r, deployment_id with
       | Some d', Some d => String.eqb d' d
       | _, _ => false
       end
    && (now <? c_expires_at r)
  else
    String.eqb (c_action_type r) action_type && (now <? c_expires_at r).

Definition select_count_cooldowns (now : Z) (action_type : string)
    (deployment_id : option string) (c : Conn) : Z :=
  Z.of_nat (length (List.filter (in_force now action_type deployment_id) (cooldowns c))).

Definition check_cooldown (action_type : string) (deployment_id : option string)
    : M bool :=
  let* now := utcnow in
  let* n := query (select_count_cooldowns now action_type deployment_id) in
  ret (0 <? n).

(** [DELETE FROM cooldowns WHERE expires_at <= ?] *)
Definition delete_expired (now : Z) (c : Conn) : Conn :=
  {| action_ledger := action_ledger c;
     action_ledger_seq := action_ledger_seq c;
     cooldowns := List.filter (fun r => negb (c_expires_at r <=? now)) (cooldowns c);
     cooldowns_seq := cooldowns_seq c;
     deployment_state := deployment_state c |}.

Definition cleanup_expired_cooldowns : M unit :=
  let* now := utcnow in
  execute (delete_expired now).

(** *** Deployment state *)

Definition select_deployment (deployment_id : string) (c : Conn)
    : option DeploymentRow :=
  List.find (fun r => String.eqb (d_deployment_id r) deployment_id)
            (deployment_state c).

Definition get_deployment_state (deployment_id : string) : M (option DeploymentRow) :=
  query (select_deployment deployment_id).

Definition empty_conn : Conn :=
  {| action_ledger := [];
     action_ledger_seq := 0;
     cooldowns := [];
     cooldowns_seq := 0;
     deployment_state := [] |}.

(** *** Reading the ledger back *)

(** [ORDER BY timestamp DESC]: SQLite leaves the order of rows with equal
    timestamps open, so the answer to such a query is any arrangement of
    the selected rows with the newer ones first. *)
Definition newest_first (rows : list ActionRow) : Prop :=
  StronglySorted (fun r r' => a_timestamp r' <= a_timestamp r) rows.

(** [LIMIT ?]: a negative limit is no limit. *)
Definition limit_rows (limit : Z) (rows : list ActionRow) : list ActionRow :=
  if limit <? 0 then rows else take (Z.to_nat limit) rows.

(** The lists [get_recent_actions(limit)] may return. *)
Definition get_recent_actions (limit : Z) (c : Conn) (rows : list ActionRow) : Prop :=
  exists ordered : list ActionRow,
    Permutation ordered (action_ledger c)
    /\ newest_first ordered
    /\ rows = limit_rows limit ordered.

(** The WHERE clause of [get_actions_by_type]; [since] is applied only
    when it is given. *)
Definition of_type_since (action_type : string) (since : option Z) (r : ActionRow)
    : bool :=
  match since with
  | Some s => String.eqb (a_action_type r) action_type && (s <=? a_timestamp r)
  | None => String.eqb (a_action_type r) action_type
  end.

(** The lists [get_actions_by_type(action_type, since)] may return. *)
Definition get_actions_by_type (action_type : string) (since : option Z) (c : Conn)
    (rows : list ActionRow) : Prop :=
  Permutation rows (List.filter (of_type_since action_type since) (action_ledger c))
  /\ newest_first rows.

(** *** Deployment state: upsert *)

Definition deployment_row (deployment_id name status : string) (replicas : Z)
    (metrics : value) (now : Z) : DeploymentRow :=
  {| d_deployment_id := deployment_id;
     d_name := name;
     d_status := status;
     d_replicas := replicas;
     d_last_checked := now;
     d_metrics := if truthy metrics then Some metrics else None;
     d_updated_at := now |}.

(** [INSERT ... ON CONFLICT(deployment_id) DO UPDATE SET ...]: every column
    of the conflicting row is overwritten. *)
Fixpoint upsert (row : DeploymentRow) (rows : list DeploymentRow)
    : list DeploymentRow :=
  match rows with
  | [] => [row]
  | r :: rest =>
      if String.eqb (d_deployment_id r) (d_deployment_id row)
      then row :: rest
      else r :: upsert row rest
  end.

Definition upsert_deployment (row : DeploymentRow) (c : Conn) : Conn :=
  {| action_ledger := action_ledger c;
     action_ledger_seq := action_ledger_seq c;
     cooldowns := cooldowns c;
     cooldowns_seq := cooldowns_seq c;
     deployment_state := upsert row (deployment_state c) |}.

Definition update_deployment_state (deployment_id name status : string)
    (replicas : Z) (metrics : value) : M unit :=
  let* now := utcnow in
  execute (upsert_deployment
             (deployment_row deployment_id name status replicas metrics now)).

(** *** Statistics *)






End AutopilotDB.

(** ** Configuration ([src/config.py]) *)

Record Settings : Type := {
  max_actions_per_hour : Z;
  max_actions_per_day : Z;
  scale_cooldown_seconds : Z;
  redeploy_cooldown_seconds : Z
}.

(** The defaults of the [Settings] class. *)
Definition default_settings : Settings :=
  {| max_actions_per_hour := 10;
     max_actions_per_day := 50;
     scale_cooldown_seconds := 3600;
     redeploy_cooldown_seconds := 7200 |}.

(** ** The guardrail engine ([PolicyGuardrails]) *)

Module PolicyGuardrails.
Import AutopilotDB AutopilotDB.Notations.

Section WithSettings.
Variable settings : Settings.

Definition _check_rate_limits (action_type : string) : M bool :=
  let* now := utcnow in
  let one_hour_ago := now - one_hour in
  let* count_hour := count_actions_since one_hour_ago (Some action_type) in
  if max_actions_per_hour settings <=? count_hour then ret false
  else
    let* now := utcnow in
    let one_day_ago := now - one_day in
    let* count_day := count_actions_since one_day_ago (Some action_type) in
    if max_actions_per_day settings <=? count_day then ret false
    else ret true.

Definition _validate_scale_action (details : value) : result (bool * option string) :=
  if negb (truthy details) then Ok (false, Some "Scale action requires details")
  else
    let+ new_count := get details "new_count" PyNone in
    match new_count with
    | PyNone => Ok (false, Some "Scale action requires new_count parameter")
    | PyFloat x shown =>
        if PrimFloat.ltb x 0 then Ok (false, Some "Replica count cannot be negative")
        else if PrimFloat.ltb 10 x then
          Ok (false, Some ("Replica count too high: " +:+ shown +:+ " (max: 10)"))
        else Ok (true, None)
    | _ =>
        match number_of new_count with
        | None => Raise TypeError
        | Some n =>
            if n <? 0 then Ok (false, Some "Replica count cannot be negative")
            else if 10 <? n then
              Ok (false, Some ("Replica count too high: " +:+ pretty n +:+ " (max: 10)"))
            else Ok (true, None)
        end
    end.

Definition _validate_redeploy_action (deployment_id : option string)
    : M (bool * option string) :=
  if negb (truthy_str deployment_id)
  then ret (false, Some "Redeploy action requires deployment_id")
  else
    (* an unknown deployment is allowed; the lookup only feeds a warning *)
    let* deployment :=
      get_deployment_state (match deployment_id with Some d => d | None => "" end) in
    ret (true, None).

Definition validate_action (action_type : string) (deployment_id : option string)
    (details : value) : M (bool * option string) :=
  let* within := _check_rate_limits action_type in
  if negb within
  then ret (false, Some ("Rate limit exceeded for " +:+ action_type))
  else
    let* cooling := check_cooldown action_type deployment_id in
    if cooling
    then ret (false, Some ("Action " +:+ action_type +:+ " is in cooldown period"))
    else if String.eqb action_type "scale" then
      let* verdict := lift (_validate_scale_action details) in
      if negb (fst verdict) then ret (false, snd verdict) else ret (true, None)
    else if String.eqb action_type "redeploy" then
      let* verdict := _validate_redeploy_action deployment_id in
      if negb (fst verdict) then ret (false, snd verdict) else ret (true, None)
    else ret (true, None).

(** The per-type duration table of [apply_cooldown], with its default. *)
Definition cooldown_seconds (action_type : string) : Z :=
  if String.eqb action_type "scale" then scale_cooldown_seconds settings
  else if String.eqb action_type "redeploy" then redeploy_cooldown_seconds settings
  else 3600.

Definition apply_cooldown (action_type : string) (deployment_id : option string)
    : M unit :=
  set_cooldown action_type (cooldown_seconds action_type) deployment_id.

Definition get_policy_summary : value :=
  PyDict [("rate_limits",
           PyDict [("max_actions_per_hour", PyInt (max_actions_per_hour settings));
                   ("max_actions_per_day", PyInt (max_actions_per_day settings))]);
          ("cooldowns",
           PyDict [("scale_cooldown_seconds", PyInt (scale_cooldown_seconds settings));
                   ("redeploy_cooldown_seconds",
                    PyInt (redeploy_cooldown_seconds settings))]);
          ("constraints",
           PyDict [("max_replicas", PyInt 10); ("min_replicas", PyInt 0)])].

End WithSettings.

End PolicyGuardrails.

(** ** The plan validator ([ActionValidator]) *)

Module ActionValidator.

Definition VALID_ACTION_TYPES : list string := ["scale"; "redeploy"; "no_action"].

(** [v in VALID_ACTION_TYPES] for a hashable [v] *)
Definition is_valid_type (v : value) : bool :=
  existsb (eq_str v) VALID_ACTION_TYPES.

Section WithRepr.
(** The text of [VALID_ACTION_TYPES] inside an f-string.  The order in which
    a set lists its elements is fixed within one interpreter run only. *)
Variable valid_action_types_repr : string.

(** One pass of the loop body of [validate_action_plan]: [Some msg] is
    [return False, msg], [None] falls through to the next element. *)
Definition check_action (i : Z) (action : value) : result (option string) :=
  match action with
  | PyDict a =>
      match dict_get a "type" with
      | None => Ok (Some ("Action " +:+ pretty i +:+ " missing 'type' field"))
      | Some action_type =>
          match hashable_str action_type with
          | None => Raise TypeError
          | Some shown =>
              if negb (is_valid_type action_type) then
                Ok (Some ("Invalid action type: '" +:+ shown +:+ "'. Must be one of "
                          +:+ valid_action_types_repr))
              else if eq_str action_type "scale" then
                if negb (dict_has a "deployment_id") then
                  Ok (Some ("Scale action " +:+ pretty i +:+ " missing 'deployment_id'"))
                else if negb (dict_has a "new_count") then
                  Ok (Some ("Scale action " +:+ pretty i +:+ " missing 'new_count'"))
                else Ok None
              else if eq_str action_type "redeploy" then
                if negb (dict_has a "deployment_id") then
                  Ok (Some ("Redeploy action " +:+ pretty i +:+ " missing 'deployment_id'"))
                else Ok None
              else Ok None
          end
      end
  | _ => Ok (Some ("Action " +:+ pretty i +:+ " must be a dictionary"))
  end.

(** [for i, action in enumerate(actions)], from index [i] on *)
Fixpoint check_actions (i : Z) (actions : list value) : result (bool * option string) :=
  match actions with
  | [] => Ok (true, None)
  | action :: rest =>
      let+ verdict := check_action i action in
      match verdict with
      | Some msg => Ok (false, Some msg)
      | None => check_actions (i + 1) rest
      end
  end.

Definition validate_action_plan (action_plan : value) : result (bool * option string) :=
  match action_plan with
  | PyDict p =>
      match dict_get p "actions" with
      | None => Ok (false, Some "Action plan must contain 'actions' key")
      | Some (PyList actions) => check_actions 0 actions
      | Some _ => Ok (false, Some "'actions' must be a list")
      end
  | _ => Ok (false, Some "Action plan must be a dictionary")
  end.

End WithRepr.

(** One pass of the loop body of [sanitize_action_plan]: [None] is the
    [continue] of a [no_action] entry. *)
Definition sanitize_action (action : value) : result (option value) :=
  let+ t := get action "type" PyNone in
  if eq_str t "no_action" then Ok None
  else
    let+ type := getitem action "type" in
    let+ deployment_id := get action "deployment_id" PyNone in
    if eq_str type "scale" then
      let+ new_count := get action "new_count" PyNone in
      let+ reason := get action "reason" (PyStr "LLM recommendation") in
      Ok (Some (PyDict [("type", type); ("deployment_id", deployment_id);
                        ("details", PyDict [("new_count", new_count);
                                            ("reason", reason)])]))
    else if eq_str type "redeploy" then
      let+ reason := get action "reason" (PyStr "LLM recommendation") in
      Ok (Some (PyDict [("type", type); ("deployment_id", deployment_id);
                        ("details", PyDict [("reason", reason)])]))
    else
      Ok (Some (PyDict [("type", type); ("deployment_id", deployment_id);
                        ("details", PyDict [])])).

(** [for action in actions], appending to [sanitized] *)
Fixpoint sanitize_actions (actions : list value) (sanitized : list value)
    : result (list value) :=
  match actions with
  | [] => Ok sanitized
  | action :: rest =>
      let+ entry := sanitize_action action in
      match entry with
      | None => sanitize_actions rest sanitized
      | Some sanitized_action => sanitize_actions rest (sanitized ++ [sanitized_action])
      end
  end.

Definition sanitize_action_plan (action_plan : value) : result (list value) :=
  let+ actions := get action_plan "actions" (PyList []) in
  let+ items := iterate actions in
  sanitize_actions items [].

End ActionValidator.

(** ** The agent loop ([AutopilotAgent]) *)

Module AutopilotAgent.
Import AutopilotDB AutopilotDB.Notations.

(** [for service_name, service_config in services.items()] *)
Fixpoint add_replicas (items : list (string * value)) (total_replicas : num)
    : result num :=
  match items with
  | [] => Ok total_replicas
  | (service_name, service_config) :: rest =>
      let+ replicas := get service_config "replicas" (PyInt 1) in
      let+ total_replicas := Py.add total_replicas replicas in
      add_replicas rest total_replicas
  end.

Definition _get_replica_count (deployment : value) : result num :=
  let+ services := get deployment "services" (PyDict []) in
  match services with
  | PyDict items => add_replicas items (NInt 0)
  | _ => Raise AttributeError
  end.

(** A sanitized action as the guardrail's signature takes it: a string
    type, a string or null deployment id, and the details payload. *)
Record Action : Type := {
  act_type : string;
  act_deployment_id : option string;
  act_details : value
}.

(** The reading [_execute_action] makes of a sanitized entry:
    [action["type"]], [action.get("deployment_id")] and
    [action.get("details", {})].  Entries whose type is not a string, or
    whose deployment id is neither a string nor null, are outside the
    typed model of the store. *)
Definition action_of_value (action : value) : option Action :=
  match action with
  | PyDict a =>
      match dict_get a "type" with
      | Some (PyStr t) =>
          let details := dict_get_or a "details" (PyDict []) in
          match dict_get_or a "deployment_id" PyNone with
          | PyNone =>
              Some {| act_type := t; act_deployment_id := None; act_details := details |}
          | PyStr d =>
              Some {| act_type := t; act_deployment_id := Some d; act_details := details |}
          | _ => None
          end
      | _ => None
      end
  | _ => None
  end.

Section WithCollaborators.
Variable settings : Settings.
(** [console_client.get_deployment]: the descriptor, [PyNone] when the
    client swallowed a transport error, or an exception of its own. *)
Variable get_deployment : option string -> result value.
(** [str(e)] *)
Variable str_of_exn : exn -> string.

Definition _execute_scale (deployment_id : option string) (details : value) : M bool :=
  let* new_count := lift (get details "new_count" PyNone) in
  let* reason := lift (get details "reason" (PyStr "LLM recommendation")) in
  let* deployment := lift (get_deployment deployment_id) in
  if negb (truthy deployment) then ret false
  else ret true.

Definition _execute_redeploy (deployment_id : option string) (details : value) : M bool :=
  let* reason := lift (get details "reason" (PyStr "LLM recommendation")) in
  let* deployment := lift (get_deployment deployment_id) in
  if negb (truthy deployment) then ret false
  else ret true.

Definition _execute_action (action : Action) : M unit :=
  let action_type := act_type action in
  let deployment_id := act_deployment_id action in
  let details := act_details action in
  let* action_id := log_action action_type deployment_id details "pending" None in
  let* verdict := PolicyGuardrails.validate_action settings action_type deployment_id details in
  if negb (fst verdict) then
    update_action_status action_id "blocked" (snd verdict)
  else
    let* outcome :=
      try_except
        (if String.eqb action_type "scale" then
           let* success := _execute_scale deployment_id details in
           ret (success, None)
         else if String.eqb action_type "redeploy" then
           let* success := _execute_redeploy deployment_id details in
           ret (success, None)
         else ret (false, Some ("Unknown action type: " +:+ action_type)))
        (fun e => ret (false, Some (str_of_exn e))) in
    let success : bool := fst outcome in
    let error : option string := snd outcome in
    let final_status := if success then "completed" else "failed" in
    let* _ := update_action_status action_id final_status error in
    if success then PolicyGuardrails.apply_cooldown settings action_type deployment_id
    else ret tt.

(** [for action in actions: await self._execute_action(action)] *)
Fixpoint execute_actions (actions : list Action) : M unit :=
  match actions with
  | [] => ret tt
  | action :: rest =>
      let* _ := _execute_action action in
      execute_actions rest
  end.

(** The sanitized entries as typed actions, when every one of them is
    inside the typed model. *)
Fixpoint typed_actions (entries : list value) : option (list Action) :=
  match entries with
  | [] => Some []
  | entry :: rest =>
      match action_of_value entry, typed_actions rest with
      | Some action, Some actions => Some (action :: actions)
      | _, _ => None
      end
  end.

(** Steps 6 to 8 of [_execute_loop_iteration], from the point where the
    recommender's answer [action_plan] is at hand ([PyNone] for no answer):
    the early return on a falsy plan, validation with its
    [validation_failed] record, sanitization, and the execution of each
    action in order.  [None] when a sanitized entry is outside the typed
    model of the store. *)
Definition _execute_loop_iteration_from_plan (valid_action_types_repr : string)
    (action_plan : value) : option (M unit) :=
  if negb (truthy action_plan) then Some (ret tt)
  else
    match ActionValidator.validate_action_plan valid_action_types_repr action_plan with
    | Raise e => Some (lift (Raise e))
    | Ok (is_valid, error) =>
        if negb is_valid then
          Some (let* _ :=
                  log_action "validation_failed" None
                    (PyDict [("error", match error with
                                       | Some msg => PyStr msg
                                       | None => PyNone
                                       end);
                             ("plan", action_plan)])
                    "failed" None in
                ret tt)
        else
          match ActionValidator.sanitize_action_plan action_plan with
          | Raise e => Some (lift (Raise e))
          | Ok actions =>
              match typed_actions actions with
              | Some typed => Some (execute_actions typed)
              | None => None
              end
          end
    end.

End WithCollaborators.

End AutopilotAgent.

(** ** The design document's wording of the derived notions *)

Module Design.
Import AutopilotDB.

(** What one declared service contributes to [replica_count]: its
    [replicas] value, 1 when it has none. *)
Definition service_replicas (service_config : value) : option Z :=
  match service_config with
  | PyDict c =>
      match dict_get c "replicas" with
      | None => Some 1
      | Some v => number_of v
      end
  | _ => None
  end.

(** A field of a plan entry, with the value used when it is absent. *)
Definition field (action : value) (k : string) (dflt : value) : value :=
  match action with
  | PyDict a => dict_get_or a k dflt
  | _ => dflt
  end.

Definition is_no_action (action : value) : bool :=
  eq_str (field action "type" PyNone) "no_action".

(** [{type, deployment_id, details}] of a plan entry, [details] built per
    type. *)
Definition extract (action : value) : value :=
  let type := field action "type" PyNone in
  let reason := field action "reason" (PyStr "LLM recommendation") in
  PyDict [("type", type);
          ("deployment_id", field action "deployment_id" PyNone);
          ("details",
           PyDict (if eq_str type "scale"
                   then [("new_count", field action "new_count" PyNone);
                         ("reason", reason)]
                   else if eq_str type "redeploy" then [("reason", reason)]
                   else []))].

(** Sanitization as the design words it: drop the [no_action] entries,
    extract the others in order. *)
Definition sanitize (actions : list value) : list value :=
  map extract (List.filter (fun a => negb (is_no_action a)) actions).

(** A plan entry the validator's rules accept. *)
Definition well_formed_action (action : value) : bool :=
  match action with
  | PyDict a =>
      match dict_get a "type" with
      | Some (PyStr t) =>
          if String.eqb t "scale"
          then dict_has a "deployment_id" && dict_has a "new_count"
          else if String.eqb t "redeploy" then dict_has a "deployment_id"
          else String.eqb t "no_action"
      | _ => false
      end
  | _ => false
  end.

(** A mapping with an [actions] list of well-formed entries. *)
Definition well_formed_plan (action_plan : value) : bool :=
  match action_plan with
  | PyDict p =>
      match dict_get p "actions" with
      | Some (PyList actions) => forallb well_formed_action actions
      | _ => false
      end
  | _ => false
  end.

(** The [new_count] a scale action's details carry, when it is there as
    an integer. *)
Definition new_count_of (details : value) : option Z :=
  match details with
  | PyDict f =>
      match dict_get f "new_count" with
      | Some v => number_of v
      | None => None
      end
  | _ => None
  end.

(** The [new_count] a scale action's details carry, when it is there as
    a float, with the text printed for it. *)
Definition float_count_of (details : value) : option (float * string) :=
  match details with
  | PyDict f =>
      match dict_get f "new_count" with
      | Some (PyFloat x shown) => Some (x, shown)
      | _ => None
      end
  | _ => None
  end.

(** [new_count] is absent, null, a boolean or an integer. *)
Definition count_is_integral (details : value) : bool :=
  match field details "new_count" PyNone with
  | PyNone | PyBool _ | PyInt _ => true
  | _ => false
  end.

(** The two counts [_check_rate_limits] takes, each at its own reading of
    the clock: the trailing hour at the next reading, the trailing day at
    the one after. *)
Definition count_hour (action_type : string) (w : World) : Z :=
  select_count_actions (clock w (reads w) - one_hour) (Some action_type) (conn w).

Definition count_day (action_type : string) (w : World) : Z :=
  select_count_actions (clock w (S (reads w)) - one_day) (Some action_type) (conn w).

(** The unchanged columns of a ledger row. *)
Definition same_record (r r' : ActionRow) : Prop :=
  a_id r' = a_id r /\ a_timestamp r' = a_timestamp r
  /\ a_action_type r' = a_action_type r
  /\ a_deployment_id r' = a_deployment_id r
  /\ a_details r' = a_details r.

(** A plan entry that is a mapping with a [type] key, whatever the type. *)
Definition has_type (action : value) : bool :=
  match action with
  | PyDict a => dict_has a "type"
  | _ => false
  end.

(** A sanitized entry the executor knows: a scale with [new_count] and
    [reason] in its details, or a redeploy with [reason]. *)
Definition executable_entry (entry : value) : bool :=
  match entry with
  | PyDict [(k1, PyStr t); (k2, _); (k3, PyDict details)] =>
      String.eqb k1 "type" && String.eqb k2 "deployment_id"
      && String.eqb k3 "details"
      && ((String.eqb t "scale" && dict_has details "new_count"
           && dict_has details "reason")
          || (String.eqb t "redeploy" && dict_has details "reason"))
  | _ => false
  end.

(** The ids of the ledger are pairwise distinct and none is above the
    counter: what AUTOINCREMENT on the primary key provides. *)
Definition ledger_ok (c : Conn) : Prop :=
  NoDup (map a_id (action_ledger c))
  /\ Forall (fun r => a_id r <= action_ledger_seq c) (action_ledger c).

(** The primary key of [deployment_state]. *)
Definition deployments_ok (c : Conn) : Prop :=
  NoDup (map d_deployment_id (deployment_state c)).

(** A value read along a path of keys, [PyNone] where the path breaks. *)
Fixpoint at_path (v : value) (path : list string) : value :=
  match path with
  | [] => v
  | k :: rest => at_path (field v k PyNone) rest
  end.

End Design.

(** ** Fixtures used by the examples *)

Module Fixtures.
Import AutopilotDB AutopilotAgent.

(** A clock that starts at 2023-11-14T22:13:20Z and advances by one
    microsecond per reading. *)
Definition t0 : Z := 1700000000000000.
Definition steady_clock (k : nat) : Z := t0 + Z.of_nat k.

Definition fresh_world : World :=
  {| conn := empty_conn; clock := steady_clock; reads := 0 |}.

(** [MockConsoleAPIClient.get_deployment] *)
Definition mock_get_deployment (deployment_id : option string) : result value :=
  Ok (PyDict [("dseq", match deployment_id with Some d => PyStr d | None => PyNone end);
              ("name", PyStr "test-deployment");
              ("status", PyStr "active");
              ("replicas", PyInt 1);
              ("services",
               PyDict [("web", PyDict [("replicas", PyInt 1);
                                       ("image", PyStr "nginx:latest")])])]).

Definition no_message (e : exn) : string := "".

Definition types_repr : string := "{'scale', 'redeploy', 'no_action'}".

Definition scale_to (deployment_id : string) (n : Z) : Action :=
  {| act_type := "scale";
     act_deployment_id := Some deployment_id;
     act_details := PyDict [("new_count", PyInt n);
                            ("reason", PyStr "LLM recommendation")] |}.


(** A completed scale action logged [age] microseconds before [t0]. *)
Definition past_scale (id age : Z) : ActionRow :=
  {| a_id := id;
     a_timestamp := t0 - age;
     a_action_type := "scale";
     a_deployment_id := Some "12345";
     a_details := Some (PyDict [("new_count", PyInt 2);
                                ("reason", PyStr "LLM recommendation")]);
     a_status := "completed";
     a_error := None |}.

Definition world_with_ledger (rows : list ActionRow) : World :=
  {| conn := {| action_ledger := rows;
                action_ledger_seq := Z.of_nat (length rows);
                cooldowns := [];
                cooldowns_seq := 0;
                deployment_state := [] |};
     clock := steady_clock;
     reads := 0 |}.

(** Three scale actions in the last half hour. *)
Definition busy_hour : World :=
  world_with_ledger [past_scale 1 (1800 * usec); past_scale 2 (1200 * usec);
                     past_scale 3 (600 * usec)].

(** Two scale actions two and three hours ago. *)
Definition busy_day : World :=
  world_with_ledger [past_scale 1 (3 * one_hour); past_scale 2 (2 * one_hour)].

Definition three_per_hour : Settings :=
  {| max_actions_per_hour := 3;
     max_actions_per_day := 50;
     scale_cooldown_seconds := 3600;
     redeploy_cooldown_seconds := 7200 |}.

Definition two_per_day : Settings :=
  {| max_actions_per_hour := 10;
     max_actions_per_day := 2;
     scale_cooldown_seconds := 3600;
     redeploy_cooldown_seconds := 7200 |}.

(** The store after [apply_cooldown("scale")] with no deployment id on a
    fresh store, at [t0]. *)
Definition after_global_cooldown : World :=
  snd (PolicyGuardrails.apply_cooldown default_settings "scale" None fresh_world).


Definition scale_details (n : Z) : value :=
  PyDict [("new_count", PyInt n); ("reason", PyStr "LLM recommendation")].

(** The details of a scale action whose plan entry read [new_count: 2.5],
    and of one that read [new_count: NaN]. *)
Definition fractional_details : value :=
  PyDict [("new_count", PyFloat 2.5 "2.5"); ("reason", PyStr "LLM recommendation")].

Definition nan_details : value :=
  PyDict [("new_count", PyFloat nan "nan"); ("reason", PyStr "LLM recommendation")].

(** Policy [{max_actions_per_hour: 1}], the other settings at their defaults. *)
Definition one_per_hour : Settings :=
  {| max_actions_per_hour := 1;
     max_actions_per_day := 50;
     scale_cooldown_seconds := 3600;
     redeploy_cooldown_seconds := 7200 |}.

End Fixtures.

(** * Properties *)

Import AutopilotDB AutopilotDB.Notations.

(** ** The ledger *)

Section Ledger.

Lemma set_status_same_record action_id status error r :
  Design.same_record r (set_status action_id status error r).
Proof.
  unfold set_status, Design.same_record.
  destruct (a_id r =? action_id); simpl; auto.
Qed.

Lemma set_status_hit action_id status error r :
  a_id r = action_id ->
  a_status (set_status action_id status error r) = status
  /\ a_error (set_status action_id status error r) = error.
Proof.
  intros <-. unfold set_status. rewrite Z.eqb_refl. simpl. auto.
Qed.

Lemma set_status_miss action_id status error r :
  a_id r <> action_id -> set_status action_id status error r = r.
Proof.
  intros Hne. unfold set_status.
  destruct (Z.eqb_spec (a_id r) action_id); [contradiction | reflexivity].
Qed.

End Ledger.

(** C10. [update_action_status] always succeeds and rewrites the ledger row
    by row: a row keeps its id, timestamp, action type, deployment id and
    details; the row with the given id gets the given status and error
    whatever it held before (an omitted error is [None] and erases the
    stored message); every other row, and every other table, is left as it
    was. *)
Theorem update_action_status_overwrites :
  forall (action_id : Z) (status : string) (error : option string) (w : World),
    let w' := snd (update_action_status action_id status error w) in
    fst (update_action_status action_id status error w) = Ok tt
    /\ Forall2
         (fun r r' =>
            Design.same_record r r'
            /\ (a_id r = action_id -> a_status r' = status /\ a_error r' = error)
            /\ (a_id r <> action_id -> r' = r))
         (action_ledger (conn w)) (action_ledger (conn w'))
    /\ action_ledger_seq (conn w') = action_ledger_seq (conn w)
    /\ cooldowns (conn w') = cooldowns (conn w)
    /\ cooldowns_seq (conn w') = cooldowns_seq (conn w)
    /\ deployment_state (conn w') = deployment_state (conn w).
Proof.
  intros action_id status error w. simpl.
  repeat split.
  induction (action_ledger (conn w)) as [| r rows IH]; simpl.
  - constructor.
  - constructor; [| exact IH].
    split; [apply set_status_same_record |].
    split; [apply set_status_hit | apply set_status_miss].
Qed.

(** A record already in a terminal state, written over with a new status
    and no error. *)
Example update_action_status_on_terminal_record :
  let row st er :=
    {| a_id := 7; a_timestamp := Fixtures.t0; a_action_type := "scale";
       a_deployment_id := Some "12345"; a_details := None;
       a_status := st; a_error := er |} in
  let w :=
    {| conn := {| action_ledger := [row "failed" (Some "boom")];
                  action_ledger_seq := 7; cooldowns := []; cooldowns_seq := 0;
                  deployment_state := [] |};
       clock := Fixtures.steady_clock; reads := 0 |} in
  action_ledger (conn (snd (update_action_status 7 "completed" None w)))
  = [row "completed" None].
Proof.
  reflexivity.
Qed.

(** ** Replica count *)

Import AutopilotAgent.

Lemma add_replicas_sum :
  forall (items : list (string * value)) (counts : list Z) (total : Z),
    Forall2 (fun kv n => Design.service_replicas (snd kv) = Some n) items counts ->
    add_replicas items (NInt total) = Ok (NInt (total + foldr Z.add 0 counts)).
Proof.
  intros items counts total H. revert total.
  induction H as [| [name cfg] n items counts Hn _ IH]; intros total; simpl.
  - do 2 f_equal. lia.
  - cbn [snd] in Hn. unfold Design.service_replicas in Hn.
    destruct cfg; try discriminate.
    cbn [add_replicas get rbind]. revert Hn.
    unfold dict_get_or.
    destruct (dict_get d "replicas") as [v |]; intros Hn.
    + destruct v; try discriminate; unfold Py.add; rewrite Hn; cbn [rbind];
        rewrite IH; do 2 f_equal; lia.
    + injection Hn as <-. cbn [Py.add number_of rbind]. rewrite IH.
      do 2 f_equal. lia.
Qed.

(** C9. For a deployment descriptor whose [services] (none when the key is
    absent) map each name to a configuration with an integer [replicas] or
    with no [replicas] at all, [_get_replica_count] returns the sum of the
    services' counts, a service without [replicas] counting for 1. *)
Theorem get_replica_count_sums_services :
  forall (d : list (string * value)) (services : list (string * value))
         (counts : list Z),
    dict_get_or d "services" (PyDict []) = PyDict services ->
    Forall2 (fun kv n => Design.service_replicas (snd kv) = Some n) services counts ->
    _get_replica_count (PyDict d) = Ok (NInt (foldr Z.add 0 counts)).
Proof.
  intros d services counts Hs Hc.
  unfold _get_replica_count. cbn [get rbind]. rewrite Hs.
  rewrite (add_replicas_sum services counts 0 Hc). reflexivity.
Qed.

(** Services [{web: {replicas: 3}, worker: {}}] give 4. *)
Lemma get_replica_count_web_worker :
  _get_replica_count
    (PyDict [("dseq", PyStr "12345");
             ("services", PyDict [("web", PyDict [("replicas", PyInt 3)]);
                                  ("worker", PyDict [])])])
  = Ok (NInt 4).
Proof.
  apply (get_replica_count_sums_services
           [("dseq", PyStr "12345");
            ("services", PyDict [("web", PyDict [("replicas", PyInt 3)]);
                                 ("worker", PyDict [])])]
           [("web", PyDict [("replicas", PyInt 3)]); ("worker", PyDict [])]
           [3; 1]).
  - reflexivity.
  - repeat constructor.
Defined.

(** ** Plan validation and sanitization *)

Import ActionValidator.

Section Validation.
Variable repr : string.

(** An entry passes one round of the validator's loop exactly when it is
    well formed. *)
Lemma check_action_accepts (i : Z) (action : value) :
  check_action repr i action = Ok None <-> Design.well_formed_action action = true.
Proof.
  unfold check_action, Design.well_formed_action.
  destruct action as [| | | | | | a]; try (split; discriminate).
  destruct (dict_get a "type") as [t |]; [| split; discriminate].
  destruct t as [| [|] | n | x shown | t | l | d]; simpl; try (split; discriminate).
  unfold is_valid_type. simpl.
  destruct (String.eqb t "scale") eqn:Hs; simpl.
  - destruct (dict_has a "deployment_id"); simpl; [| split; discriminate].
    destruct (dict_has a "new_count"); simpl; split; auto; discriminate.
  - destruct (String.eqb t "redeploy") eqn:Hr; simpl.
    + destruct (dict_has a "deployment_id"); simpl; split; auto; discriminate.
    + destruct (String.eqb t "no_action"); simpl; split; auto; discriminate.
Qed.

Lemma check_actions_accepts (actions : list value) :
  forall i : Z,
    check_actions repr i actions = Ok (true, None)
    <-> forallb Design.well_formed_action actions = true.
Proof.
  induction actions as [| action rest IH]; intros i; simpl.
  - split; auto.
  - rewrite andb_true_iff, <- (IH (i + 1)), <- (check_action_accepts i).
    destruct (check_action repr i action) as [[msg |] | e]; simpl.
    + split; [discriminate | intros [H _]; discriminate].
    + tauto.
    + split; [discriminate | intros [H _]; discriminate].
Qed.

Lemma validate_action_plan_accepts (action_plan : value) :
  validate_action_plan repr action_plan = Ok (true, None)
  <-> Design.well_formed_plan action_plan = true.
Proof.
  unfold validate_action_plan, Design.well_formed_plan.
  destruct action_plan as [| | | | | | p]; try (split; discriminate).
  destruct (dict_get p "actions") as [actions |]; [| split; discriminate].
  destruct actions; try (split; discriminate).
  apply check_actions_accepts.
Qed.

Lemma check_actions_cons (i : Z) (action : value) (rest : list value) :
  check_actions repr i (action :: rest)
  = let+ verdict := check_action repr i action in
    match verdict with
    | Some msg => Ok (false, Some msg)
    | None => check_actions repr (i + 1) rest
    end.
Proof. reflexivity. Qed.

(** The loop stops at the first entry that is not well formed, with that
    entry's verdict. *)
Lemma check_actions_first_offender (good : list value) (bad : value) (rest : list value) :
  forall i : Z,
    forallb Design.well_formed_action good = true ->
    check_actions repr i (good ++ bad :: rest)
    = check_actions repr (i + Z.of_nat (length good)) (bad :: rest).
Proof.
  induction good as [| g good IH]; intros i Hgood.
  - cbn [app length]. replace (i + Z.of_nat 0) with i by lia. reflexivity.
  - simpl in Hgood. apply andb_true_iff in Hgood as [Hg Hgood].
    apply (check_action_accepts i) in Hg.
    replace (i + Z.of_nat (length (g :: good)))
      with (i + 1 + Z.of_nat (length good)) by (rewrite length_cons; lia).
    rewrite <- (IH (i + 1) Hgood).
    change ((g :: good) ++ bad :: rest)%list with (g :: (good ++ bad :: rest))%list.
    rewrite check_actions_cons, Hg. reflexivity.
Qed.

End Validation.

(** An entry with a [type] key is dropped when that type is [no_action]
    and extracted otherwise. *)
Lemma sanitize_action_extracts (a : list (string * value)) (t : value) :
  dict_get a "type" = Some t ->
  sanitize_action (PyDict a)
  = Ok (if Design.is_no_action (PyDict a) then None else Some (Design.extract (PyDict a))).
Proof.
  intros Ht.
  assert (Hor : dict_get_or a "type" PyNone = t)
    by (unfold dict_get_or; rewrite Ht; reflexivity).
  unfold sanitize_action, Design.is_no_action, Design.extract, Design.field.
  cbn [get getitem rbind]. rewrite Ht, !Hor.
  destruct (eq_str t "no_action"); [reflexivity |].
  cbn [rbind].
  destruct (eq_str t "scale"); [reflexivity |].
  destruct (eq_str t "redeploy"); reflexivity.
Qed.

Lemma well_formed_action_has_type (action : value) :
  Design.well_formed_action action = true ->
  exists a t, action = PyDict a /\ dict_get a "type" = Some t.
Proof.
  unfold Design.well_formed_action.
  destruct action as [| | | | | | a]; try discriminate.
  destruct (dict_get a "type") as [t |] eqn:Ht; [| discriminate].
  intros _. exists a, t. split; [reflexivity | exact Ht].
Qed.

Lemma sanitize_actions_spec (actions : list value) :
  forall sanitized : list value,
    forallb Design.well_formed_action actions = true ->
    sanitize_actions actions sanitized = Ok (sanitized ++ Design.sanitize actions).
Proof.
  induction actions as [| action rest IH]; intros sanitized Hwf.
  - simpl. rewrite app_nil_r. reflexivity.
  - simpl in Hwf. apply andb_true_iff in Hwf as [Ha Hrest].
    destruct (well_formed_action_has_type action Ha) as (a & t & -> & Ht).
    cbn [sanitize_actions]. rewrite (sanitize_action_extracts a t Ht).
    cbn [rbind]. unfold Design.sanitize. cbn [List.filter].
    destruct (Design.is_no_action (PyDict a)); cbn [negb map].
    + apply IH, Hrest.
    + rewrite (IH _ Hrest). unfold Design.sanitize.
      rewrite <- app_assoc. reflexivity.
Qed.

(** Sanitizing a well-formed plan never raises and yields the design's
    list. *)
Lemma sanitize_well_formed_plan (action_plan : value) :
  Design.well_formed_plan action_plan = true ->
  exists (p : list (string * value)) (actions : list value),
    action_plan = PyDict p
    /\ dict_get p "actions" = Some (PyList actions)
    /\ forallb Design.well_formed_action actions = true
    /\ sanitize_action_plan action_plan = Ok (Design.sanitize actions).
Proof.
  intros Hvalid.
  unfold Design.well_formed_plan in Hvalid.
  destruct action_plan as [| | | | | | p]; try discriminate.
  destruct (dict_get p "actions") as [actions |] eqn:Hactions; [| discriminate].
  destruct actions as [| | | | | actions |]; try discriminate.
  exists p, actions.
  split; [reflexivity |]. split; [exact Hactions |]. split; [exact Hvalid |].
  unfold sanitize_action_plan. cbn [get rbind]. unfold dict_get_or.
  rewrite Hactions. cbn [iterate rbind].
  apply (sanitize_actions_spec actions [] Hvalid).
Qed.

(** C6 (as amended). Validation is a function of the plan (within one
    interpreter run, which fixes the text of the set of valid types) and
    accepts exactly the well-formed plans: a
    mapping with an [actions] list whose entries are mappings with a type
    among scale, redeploy and no_action, scale entries carrying
    [deployment_id] and [new_count], redeploy entries [deployment_id].
    Entries are checked in order and the first offending one decides the
    verdict: a hashable type outside the set is rejected with the value
    named; a scale entry that carries [deployment_id] but no [new_count] is
    rejected with an error naming [new_count]; and a plan with an offending
    entry is never accepted. *)
Theorem validate_action_plan_verdicts :
  forall (repr : string) (action_plan : value),
    (forall v1 v2 : result (bool * option string),
        validate_action_plan repr action_plan = v1 ->
        validate_action_plan repr action_plan = v2 ->
        v1 = v2)
    /\ (validate_action_plan repr action_plan = Ok (true, None)
        <-> Design.well_formed_plan action_plan = true)
    /\ (forall (p : list (string * value)) (good : list value) (bad : value)
               (rest : list value),
          action_plan = PyDict p ->
          dict_get p "actions" = Some (PyList (good ++ bad :: rest)) ->
          forallb Design.well_formed_action good = true ->
          (forall (a : list (string * value)) (t : value) (shown : string),
              bad = PyDict a ->
              dict_get a "type" = Some t ->
              hashable_str t = Some shown ->
              is_valid_type t = false ->
              validate_action_plan repr action_plan
              = Ok (false, Some ("Invalid action type: '" +:+ shown
                                 +:+ "'. Must be one of " +:+ repr)))
          /\ (forall a : list (string * value),
                 bad = PyDict a ->
                 dict_get a "type" = Some (PyStr "scale") ->
                 dict_has a "deployment_id" = true ->
                 dict_has a "new_count" = false ->
                 validate_action_plan repr action_plan
                 = Ok (false, Some ("Scale action " +:+ pretty (Z.of_nat (length good))
                                    +:+ " missing 'new_count'")))
          /\ (Design.well_formed_action bad = false ->
              validate_action_plan repr action_plan <> Ok (true, None))).
Proof.
  intros repr action_plan.
  split; [intros v1 v2 <- <-; reflexivity |].
  split; [apply validate_action_plan_accepts |].
  intros p good bad rest -> Hactions Hgood.
  assert (Hrun : validate_action_plan repr (PyDict p)
                 = check_actions repr (Z.of_nat (length good)) (bad :: rest)).
  { unfold validate_action_plan. rewrite Hactions.
    rewrite (check_actions_first_offender repr good bad rest 0 Hgood).
    reflexivity. }
  repeat split.
  - intros a t shown -> Ht Hshown Hinvalid. rewrite Hrun.
    rewrite check_actions_cons. unfold check_action.
    rewrite Ht, Hshown, Hinvalid. reflexivity.
  - intros a -> Ht Hdep Hcount. rewrite Hrun.
    rewrite check_actions_cons. unfold check_action.
    rewrite Ht, Hdep, Hcount. reflexivity.
  - intros Hbad Haccept.
    apply validate_action_plan_accepts in Haccept.
    unfold Design.well_formed_plan in Haccept. rewrite Hactions in Haccept.
    rewrite forallb_app in Haccept. cbn [forallb] in Haccept.
    rewrite Hbad in Haccept. rewrite andb_false_r in Haccept. discriminate.
Qed.

(** A scale entry with neither field is rejected on [deployment_id], the
    first check that fails, and the error does not mention [new_count]; a
    list-valued type is not rejected but raises. *)
Lemma validate_action_plan_bare_scale :
  validate_action_plan Fixtures.types_repr
    (PyDict [("actions", PyList [PyDict [("type", PyStr "scale")]])])
  = Ok (false, Some "Scale action 0 missing 'deployment_id'")
  /\ validate_action_plan Fixtures.types_repr
       (PyDict [("actions", PyList [PyDict [("type", PyList [PyStr "scale"])]])])
     = Raise TypeError.
Proof. split; reflexivity. Qed.

(** The second entry lacks [new_count]; a plan whose only entry has the
    type [restart] is rejected with that value named. *)
Lemma validate_action_plan_verdicts_examples :
  validate_action_plan Fixtures.types_repr
    (PyDict [("reasoning", PyStr "cpu pressure");
             ("actions", PyList [PyDict [("type", PyStr "no_action")];
                                 PyDict [("type", PyStr "scale");
                                         ("deployment_id", PyStr "12345")]])])
  = Ok (false, Some "Scale action 1 missing 'new_count'")
  /\ validate_action_plan Fixtures.types_repr
       (PyDict [("actions", PyList [PyDict [("type", PyStr "restart")]])])
     = Ok (false, Some "Invalid action type: 'restart'. Must be one of {'scale', 'redeploy', 'no_action'}").
Proof.
  split.
  - pose proof (validate_action_plan_verdicts Fixtures.types_repr
                  (PyDict [("reasoning", PyStr "cpu pressure");
                           ("actions", PyList [PyDict [("type", PyStr "no_action")];
                                               PyDict [("type", PyStr "scale");
                                                       ("deployment_id", PyStr "12345")]])]))
      as (_ & _ & H).
    destruct (H _ [PyDict [("type", PyStr "no_action")]] _ [] eq_refl eq_refl eq_refl)
      as (_ & Hcount & _).
    exact (Hcount _ eq_refl eq_refl eq_refl eq_refl).
  - pose proof (validate_action_plan_verdicts Fixtures.types_repr
                  (PyDict [("actions", PyList [PyDict [("type", PyStr "restart")]])]))
      as (_ & _ & H).
    destruct (H _ [] _ [] eq_refl eq_refl eq_refl) as (Htype & _ & _).
    exact (Htype _ _ "restart" eq_refl eq_refl eq_refl eq_refl).
Defined.

(** C7. For a plan that validation accepts, [sanitize_action_plan] returns
    the plan's entries without the [no_action] ones, the others in their
    original order, each as [{type, deployment_id, details}] with the
    details of its type and the reason defaulted when absent. *)
Theorem sanitize_action_plan_drops_no_action :
  forall (repr : string) (action_plan : value),
    validate_action_plan repr action_plan = Ok (true, None) ->
    exists (p : list (string * value)) (actions : list value),
      action_plan = PyDict p
      /\ dict_get p "actions" = Some (PyList actions)
      /\ sanitize_action_plan action_plan = Ok (Design.sanitize actions).
Proof.
  intros repr action_plan Hvalid.
  apply validate_action_plan_accepts in Hvalid.
  destruct (sanitize_well_formed_plan action_plan Hvalid)
    as (p & actions & Hp & Hactions & _ & Hsan).
  exists p, actions. auto.
Qed.

(** [[{type: no_action}, {type: scale, ...}, {type: redeploy, ...}]] yields
    two entries, the scale one before the redeploy one. *)
Lemma sanitize_action_plan_three_entries :
  sanitize_action_plan
    (PyDict [("reasoning", PyStr "web is saturated");
             ("actions",
              PyList [PyDict [("type", PyStr "no_action")];
                      PyDict [("type", PyStr "scale");
                              ("deployment_id", PyStr "12345");
                              ("new_count", PyInt 3)];
                      PyDict [("type", PyStr "redeploy");
                              ("deployment_id", PyStr "67890");
                              ("reason", PyStr "crash loop")]])])
  = Ok [PyDict [("type", PyStr "scale");
                ("deployment_id", PyStr "12345");
                ("details", PyDict [("new_count", PyInt 3);
                                    ("reason", PyStr "LLM recommendation")])];
        PyDict [("type", PyStr "redeploy");
                ("deployment_id", PyStr "67890");
                ("details", PyDict [("reason", PyStr "crash loop")])]].
Proof.
  destruct (sanitize_action_plan_drops_no_action Fixtures.types_repr
              (PyDict [("reasoning", PyStr "web is saturated");
                       ("actions",
                        PyList [PyDict [("type", PyStr "no_action")];
                                PyDict [("type", PyStr "scale");
                                        ("deployment_id", PyStr "12345");
                                        ("new_count", PyInt 3)];
                                PyDict [("type", PyStr "redeploy");
                                        ("deployment_id", PyStr "67890");
                                        ("reason", PyStr "crash loop")]])])
              eq_refl) as (p & actions & Hp & Hactions & Hsan).
  injection Hp as <-. injection Hactions as <-.
  exact Hsan.
Defined.

(** ** The guardrail engine *)

Import PolicyGuardrails.

Section Guardrails.
Variable settings : Settings.

Lemma check_rate_limits_run (action_type : string) (w : World) :
  _check_rate_limits settings action_type w
  = if max_actions_per_hour settings <=? Design.count_hour action_type w
    then (Ok false, tick w)
    else if max_actions_per_day settings <=? Design.count_day action_type w
         then (Ok false, tick (tick w))
         else (Ok true, tick (tick w)).
Proof.
  unfold _check_rate_limits, Design.count_hour, Design.count_day, bind, utcnow,
    count_actions_since, query, ret.
  cbn [tick conn clock reads].
  destruct (max_actions_per_hour settings <=? _); [reflexivity |].
  destruct (max_actions_per_day settings <=? _); reflexivity.
Qed.

Lemma check_cooldown_run (action_type : string) (deployment_id : option string)
    (w : World) :
  check_cooldown action_type deployment_id w
  = (Ok (0 <? select_count_cooldowns (clock w (reads w)) action_type deployment_id
                                     (conn w)),
     tick w).
Proof. reflexivity. Qed.

(** A ceiling reached at either window ends [validate_action] with the
    rate-limit reason. *)
Lemma validate_action_rate_limited (action_type : string)
    (deployment_id : option string) (details : value) (w : World) :
  fst (_check_rate_limits settings action_type w) = Ok false ->
  fst (validate_action settings action_type deployment_id details w)
  = Ok (false, Some ("Rate limit exceeded for " +:+ action_type)).
Proof.
  unfold validate_action, bind.
  destruct (_check_rate_limits settings action_type w) as [[[|] | e] w1];
    cbn [fst]; try discriminate.
  intros _. reflexivity.
Qed.


(** A scale verdict that allows carries no reason. *)
Lemma validate_scale_action_allowed (details : value) (reason : option string) :
  _validate_scale_action details = Ok (true, reason) -> reason = None.
Proof.
  unfold _validate_scale_action.
  destruct (truthy details); cbn [negb]; [| discriminate].
  destruct (get details "new_count" PyNone) as [new_count | e]; cbn [rbind];
    [| discriminate].
  destruct new_count as [| b | n | x shown | s | l | d]; cbn [number_of]; try discriminate.
  - destruct (Z.b2z b <? 0); [discriminate |].
    destruct (10 <? Z.b2z b); [discriminate |]. congruence.
  - destruct (n <? 0); [discriminate |].
    destruct (10 <? n); [discriminate |]. congruence.
  - destruct (x <? 0)%float; [discriminate |].
    destruct (10 <? x)%float; [discriminate |]. congruence.
Qed.

(** Past both checks, a scale action's verdict is that of its details. *)
Lemma validate_action_scale (deployment_id : option string) (details : value)
    (w w1 : World) :
  _check_rate_limits settings "scale" w = (Ok true, w1) ->
  fst (check_cooldown "scale" deployment_id w1) = Ok false ->
  fst (validate_action settings "scale" deployment_id details w)
  = _validate_scale_action details.
Proof.
  intros Hrate Hcool. unfold validate_action, bind. rewrite Hrate.
  cbn [negb]. rewrite check_cooldown_run in *. cbn [fst] in Hcool.
  injection Hcool as ->. cbn [String.eqb Ascii.eqb Bool.eqb].
  unfold lift, ret.
  destruct (_validate_scale_action details) as [[[|] reason] | e] eqn:Hv; cbn.
  - rewrite (validate_scale_action_allowed details reason Hv). reflexivity.
  - reflexivity.
  - reflexivity.
Qed.

(** The details that pass: an integer [new_count] between 0 and 10, or a
    float one that is neither below 0 nor above 10. *)
Lemma validate_scale_action_allows (details : value) :
  _validate_scale_action details = Ok (true, None)
  <-> (exists n : Z, Design.new_count_of details = Some n /\ 0 <= n <= 10)
      \/ (exists (x : float) (shown : string),
            Design.float_count_of details = Some (x, shown)
            /\ (x <? 0)%float = false /\ (10 <? x)%float = false).
Proof.
  unfold _validate_scale_action, Design.new_count_of, Design.float_count_of.
  destruct details as [| b | m | x shown | s | l | f]; cbn [truthy negb get rbind].
  1: split; [discriminate | intros [(n & H & _) | (x & shown & H & _)]; discriminate].
  1: destruct b; cbn [negb];
       (split; [discriminate | intros [(n & H & _) | (x & shown & H & _)]; discriminate]).
  1: destruct (m =? 0); cbn [negb];
       (split; [discriminate | intros [(n & H & _) | (y & text & H & _)]; discriminate]).
  1: destruct (x =? 0)%float; cbn [negb];
       (split; [discriminate | intros [(n & H & _) | (y & text & H & _)]; discriminate]).
  1: destruct (String.eqb s ""); cbn [negb];
       (split; [discriminate | intros [(n & H & _) | (x & shown & H & _)]; discriminate]).
  1: destruct l; cbn [negb];
       (split; [discriminate | intros [(n & H & _) | (x & shown & H & _)]; discriminate]).
  destruct f as [| kv f]; cbn [negb].
  { split; [discriminate | intros [(n & H & _) | (x & shown & H & _)]; discriminate]. }
  unfold dict_get_or.
  destruct (dict_get (kv :: f) "new_count") as [v |];
    [| split; [discriminate | intros [(n & H & _) | (x & shown & H & _)]; discriminate]].
  destruct v as [| b | m | x shown | s | l | d]; cbn [number_of];
    try (split; [discriminate | intros [(n & H & _) | (y & text & H & _)]; discriminate]).
  - destruct (Z.ltb_spec (Z.b2z b) 0) as [Hlo | Hlo].
    { split; [discriminate |].
      intros [(n & Hc & Hn) | (y & text & H & _)]; [| discriminate].
      injection Hc as <-; lia. }
    destruct (Z.ltb_spec 10 (Z.b2z b)) as [Hhi | Hhi].
    { split; [discriminate |].
      intros [(n & Hc & Hn) | (y & text & H & _)]; [| discriminate].
      injection Hc as <-; lia. }
    split; [intros _; left; exists (Z.b2z b); split; [reflexivity | lia] | reflexivity].
  - destruct (Z.ltb_spec m 0) as [Hlo | Hlo].
    { split; [discriminate |].
      intros [(n & Hc & Hn) | (y & text & H & _)]; [| discriminate].
      injection Hc as <-; lia. }
    destruct (Z.ltb_spec 10 m) as [Hhi | Hhi].
    { split; [discriminate |].
      intros [(n & Hc & Hn) | (y & text & H & _)]; [| discriminate].
      injection Hc as <-; lia. }
    split; [intros _; left; exists m; split; [reflexivity | lia] | reflexivity].
  - destruct (x <? 0)%float eqn:Hlo.
    { split; [discriminate |].
      intros [(n & Hc & _) | (y & text & H & Hy & _)]; [discriminate |].
      injection H as <- <-. congruence. }
    destruct (10 <? x)%float eqn:Hhi.
    { split; [discriminate |].
      intros [(n & Hc & _) | (y & text & H & _ & Hy)]; [discriminate |].
      injection H as <- <-. congruence. }
    split; [| reflexivity].
    intros _. right. exists x, shown. repeat split; assumption.
Qed.

(** The details that fail on the count itself. *)
Lemma validate_scale_action_out_of_range (details : value) (n : Z) :
  Design.new_count_of details = Some n ->
  (n < 0 ->
   _validate_scale_action details = Ok (false, Some "Replica count cannot be negative"))
  /\ (10 < n ->
      _validate_scale_action details
      = Ok (false, Some ("Replica count too high: " +:+ pretty n +:+ " (max: 10)"))).
Proof.
  unfold _validate_scale_action, Design.new_count_of.
  destruct details as [| | | | | | f]; try discriminate.
  destruct f as [| kv f]; [discriminate |].
  cbn [truthy negb get rbind]. unfold dict_get_or.
  destruct (dict_get (kv :: f) "new_count") as [v |]; [| discriminate].
  destruct v as [| b | m | x shown | s | l | d]; cbn [number_of]; try discriminate.
  - intros H. injection H as <-. split; intros Hn; destruct b; cbn in Hn; lia.
  - intros H. injection H as <-. split; intros Hn.
    + destruct (Z.ltb_spec m 0); [reflexivity | lia].
    + destruct (Z.ltb_spec m 0); [lia |].
      destruct (Z.ltb_spec 10 m); [reflexivity | lia].
Qed.

(** The same for a float count, which is shown as Python prints it. *)
Lemma validate_scale_action_float_out_of_range (details : value) (x : float)
    (shown : string) :
  Design.float_count_of details = Some (x, shown) ->
  ((x <? 0)%float = true ->
   _validate_scale_action details = Ok (false, Some "Replica count cannot be negative"))
  /\ ((x <? 0)%float = false -> (10 <? x)%float = true ->
      _validate_scale_action details
      = Ok (false, Some ("Replica count too high: " +:+ shown +:+ " (max: 10)"))).
Proof.
  unfold _validate_scale_action, Design.float_count_of.
  destruct details as [| | | | | | f]; try discriminate.
  destruct f as [| kv f]; [discriminate |].
  cbn [truthy negb get rbind]. unfold dict_get_or.
  destruct (dict_get (kv :: f) "new_count") as [v |]; [| discriminate].
  destruct v as [| b | m | y text | s | l | d]; try discriminate.
  intros H. injection H as <- <-.
  split; [intros -> | intros -> ->]; reflexivity.
Qed.

End Guardrails.

(** C8. For a scale action that neither rate limit nor cooldown stops,
    [validate_action] allows exactly when the details carry a [new_count]
    that is a number neither below 0 nor above the literal 10: an integer
    (or boolean) between 0 and 10, or a float for which [new_count < 0]
    and [new_count > 10] are both false.  Absent details, a missing
    [new_count], a negative one and one above 10 are each denied with a
    reason of their own; the last shows the count as Python prints it. *)
Theorem validate_action_scale_bounds :
  forall (settings : Settings) (deployment_id : option string) (details : value)
         (w w1 : World),
    _check_rate_limits settings "scale" w = (Ok true, w1) ->
    fst (check_cooldown "scale" deployment_id w1) = Ok false ->
    let verdict := fst (validate_action settings "scale" deployment_id details w) in
    (verdict = Ok (true, None)
     <-> (exists n : Z, Design.new_count_of details = Some n /\ 0 <= n <= 10)
         \/ (exists (x : float) (shown : string),
               Design.float_count_of details = Some (x, shown)
               /\ (x <? 0)%float = false /\ (10 <? x)%float = false))
    /\ (truthy details = false ->
        verdict = Ok (false, Some "Scale action requires details"))
    /\ (forall f : list (string * value),
          details = PyDict f -> f <> [] ->
          dict_get_or f "new_count" PyNone = PyNone ->
          verdict = Ok (false, Some "Scale action requires new_count parameter"))
    /\ (forall n : Z,
          Design.new_count_of details = Some n -> n < 0 ->
          verdict = Ok (false, Some "Replica count cannot be negative"))
    /\ (forall n : Z,
          Design.new_count_of details = Some n -> 10 < n ->
          verdict = Ok (false, Some ("Replica count too high: " +:+ pretty n
                                     +:+ " (max: 10)")))
    /\ (forall (x : float) (shown : string),
          Design.float_count_of details = Some (x, shown) ->
          (x <? 0)%float = true ->
          verdict = Ok (false, Some "Replica count cannot be negative"))
    /\ (forall (x : float) (shown : string),
          Design.float_count_of details = Some (x, shown) ->
          (x <? 0)%float = false -> (10 <? x)%float = true ->
          verdict = Ok (false, Some ("Replica count too high: " +:+ shown
                                     +:+ " (max: 10)")))
    /\ (forall shown : string,
          let too_high := "Replica count too high: " +:+ shown +:+ " (max: 10)" in
          "Scale action requires details" <> "Replica count cannot be negative"
          /\ "Scale action requires details"
             <> "Scale action requires new_count parameter"
          /\ "Scale action requires new_count parameter"
             <> "Replica count cannot be negative"
          /\ "Scale action requires details" <> too_high
          /\ "Scale action requires new_count parameter" <> too_high
          /\ "Replica count cannot be negative" <> too_high).
Proof.
  intros settings deployment_id details w w1 Hrate Hcool verdict.
  subst verdict.
  rewrite (validate_action_scale settings deployment_id details w w1 Hrate Hcool).
  split; [apply validate_scale_action_allows |].
  split.
  { intros Hfalsy. unfold _validate_scale_action. rewrite Hfalsy. reflexivity. }
  split.
  { intros f -> Hf Hnone. unfold _validate_scale_action.
    destruct f as [| kv f]; [contradiction |].
    cbn [truthy negb get rbind]. rewrite Hnone. reflexivity. }
  split.
  { intros n Hn Hneg.
    apply (proj1 (validate_scale_action_out_of_range details n Hn) Hneg). }
  split.
  { intros n Hn Hhigh.
    apply (proj2 (validate_scale_action_out_of_range details n Hn) Hhigh). }
  split.
  { intros x shown Hx Hneg.
    apply (proj1 (validate_scale_action_float_out_of_range details x shown Hx) Hneg). }
  split.
  { intros x shown Hx Hlo Hhigh.
    apply (proj2 (validate_scale_action_float_out_of_range details x shown Hx)
             Hlo Hhigh). }
  intros shown. cbn. repeat split; discriminate.
Qed.

(** On a fresh store, [new_count = 3] is allowed. *)
Lemma validate_action_scale_three_allowed :
  fst (validate_action default_settings "scale" (Some "12345")
         (PyDict [("new_count", PyInt 3); ("reason", PyStr "LLM recommendation")])
         Fixtures.fresh_world)
  = Ok (true, None).
Proof.
  apply (proj1 (validate_action_scale_bounds default_settings (Some "12345")
                  (PyDict [("new_count", PyInt 3);
                           ("reason", PyStr "LLM recommendation")])
                  Fixtures.fresh_world (tick (tick Fixtures.fresh_world))
                  eq_refl eq_refl)).
  left. exists 3. split; [reflexivity | lia].
Defined.

(** On a fresh store a scale action to 2.5 replicas is allowed, although
    its count is no integer; and one whose count is NaN is allowed,
    although NaN is neither at least 0 nor at most 10. *)
Lemma validate_action_allows_fractional_count :
  fst (validate_action default_settings "scale" (Some "12345")
         Fixtures.fractional_details Fixtures.fresh_world)
  = Ok (true, None)
  /\ Design.new_count_of Fixtures.fractional_details = None
  /\ fst (validate_action default_settings "scale" (Some "12345")
            Fixtures.nan_details Fixtures.fresh_world)
     = Ok (true, None)
  /\ (0 <=? nan)%float = false
  /\ (nan <=? 10)%float = false.
Proof. repeat split; vm_compute; reflexivity. Qed.

(** ** Rate limits and cooldowns *)

Section Cooldowns.
Variable settings : Settings.





End Cooldowns.

(** C4 (as amended). When the trailing-hour count or the trailing-day count
    of actions of the type has reached its ceiling, [validate_action]
    denies with the reason [Rate limit exceeded for <type>]: the type is
    named; the window, the count and the ceiling are not part of it. *)
Theorem validate_action_rate_limit_reason :
  forall (settings : Settings) (action_type : string)
         (deployment_id : option string) (details : value) (w : World),
    max_actions_per_hour settings <= Design.count_hour action_type w
    \/ max_actions_per_day settings <= Design.count_day action_type w ->
    fst (validate_action settings action_type deployment_id details w)
    = Ok (false, Some ("Rate limit exceeded for " +:+ action_type)).
Proof.
  intros settings action_type deployment_id details w Hceiling.
  apply validate_action_rate_limited. rewrite check_rate_limits_run.
  destruct (Z.leb_spec (max_actions_per_hour settings)
                       (Design.count_hour action_type w)); [reflexivity |].
  destruct (Z.leb_spec (max_actions_per_day settings)
                       (Design.count_day action_type w)); [reflexivity | lia].
Qed.

(** Three of three allowed per hour. *)
Lemma validate_action_rate_limit_reason_hourly :
  fst (validate_action Fixtures.three_per_hour "scale" (Some "12345")
         (Fixtures.scale_details 2) Fixtures.busy_hour)
  = Ok (false, Some "Rate limit exceeded for scale").
Proof.
  apply (validate_action_rate_limit_reason Fixtures.three_per_hour "scale").
  left. vm_compute. discriminate.
Defined.

(** The hourly ceiling reached with 3 of 3, and the daily one with 2 of 2
    while the hour holds 0 of 10, are denied with one and the same reason. *)
Lemma validate_action_rate_limit_reason_is_generic :
  Design.count_hour "scale" Fixtures.busy_hour = 3
  /\ max_actions_per_hour Fixtures.three_per_hour = 3
  /\ fst (validate_action Fixtures.three_per_hour "scale" (Some "12345")
            (Fixtures.scale_details 2) Fixtures.busy_hour)
     = Ok (false, Some "Rate limit exceeded for scale")
  /\ Design.count_hour "scale" Fixtures.busy_day = 0
  /\ Design.count_day "scale" Fixtures.busy_day = 2
  /\ max_actions_per_day Fixtures.two_per_day = 2
  /\ fst (validate_action Fixtures.two_per_day "scale" (Some "12345")
            (Fixtures.scale_details 2) Fixtures.busy_day)
     = Ok (false, Some "Rate limit exceeded for scale").
Proof. repeat split; vm_compute; reflexivity. Qed.







(** ** From a validated plan to the guardrail *)

Section Pipeline.
Variable settings : Settings.

(** [validate_action] returns a verdict whenever a scale action's details
    are a mapping whose [new_count] is absent, null, a boolean or an
    integer; no other input of it is compared or looked into. *)
Lemma validate_action_returns (action_type : string)
    (deployment_id : option string) (details : value) (w : World) :
  (action_type = "scale" ->
   (exists f, details = PyDict f) /\ Design.count_is_integral details = true) ->
  exists verdict : bool * option string,
    fst (validate_action settings action_type deployment_id details w) = Ok verdict.
Proof.
  intros Hscale. unfold validate_action, bind.
  rewrite check_rate_limits_run.
  destruct (_ <=? _); [eexists; reflexivity |].
  destruct (_ <=? _); [eexists; reflexivity |].
  cbn [negb]. rewrite check_cooldown_run.
  destruct (0 <? _); [eexists; reflexivity |].
  destruct (String.eqb_spec action_type "scale") as [Hs | Hs].
  - destruct (Hscale Hs) as [[f ->] Hcount].
    unfold lift, _validate_scale_action.
    destruct f as [| kv f]; cbn [truthy negb]; [eexists; reflexivity |].
    cbn [get rbind].
    unfold Design.count_is_integral, Design.field in Hcount.
    destruct (dict_get_or (kv :: f) "new_count" PyNone) as [| b | n | x shown | s | l | d];
      try discriminate; cbn [number_of].
    + eexists; reflexivity.
    + destruct (Z.b2z b <? 0); [eexists; reflexivity |].
      destruct (10 <? Z.b2z b); eexists; reflexivity.
    + destruct (n <? 0); [eexists; reflexivity |].
      destruct (10 <? n); eexists; reflexivity.
  - destruct (String.eqb action_type "redeploy"); [| eexists; reflexivity].
    unfold _validate_redeploy_action.
    destruct (truthy_str deployment_id); eexists; reflexivity.
Qed.

(** What the loop reads out of an extracted entry. *)
Lemma action_of_extract (a : value) (action : AutopilotAgent.Action) :
  AutopilotAgent.action_of_value (Design.extract a) = Some action ->
  exists f : list (string * value),
    AutopilotAgent.act_details action = PyDict f
    /\ Design.field a "type" PyNone = PyStr (AutopilotAgent.act_type action).
Proof.
  unfold Design.extract, AutopilotAgent.action_of_value.
  cbn [dict_get dict_get_or String.eqb Ascii.eqb Bool.eqb].
  destruct (Design.field a "type" PyNone) as [| | | | t | |]; try discriminate.
  destruct (Design.field a "deployment_id" PyNone); try discriminate;
    intros H; injection H as <-; cbn [AutopilotAgent.act_details AutopilotAgent.act_type];
    eexists; split; reflexivity.
Qed.

End Pipeline.

(** C2 (as amended). For a plan that validation accepts, [validate_action]
    on a sanitized action returns a verdict and raises nothing, provided
    the action's [new_count] is null, a boolean or an integer. *)
Theorem validate_action_total_on_integral_counts :
  forall (repr : string) (settings : Settings) (action_plan : value)
         (entries : list value) (entry : value) (action : AutopilotAgent.Action)
         (w : World),
    validate_action_plan repr action_plan = Ok (true, None) ->
    sanitize_action_plan action_plan = Ok entries ->
    In entry entries ->
    AutopilotAgent.action_of_value entry = Some action ->
    Design.count_is_integral (AutopilotAgent.act_details action) = true ->
    exists verdict : bool * option string,
      fst (validate_action settings (AutopilotAgent.act_type action)
             (AutopilotAgent.act_deployment_id action)
             (AutopilotAgent.act_details action) w)
      = Ok verdict.
Proof.
  intros repr settings action_plan entries entry action w
         Hvalid Hsan Hin Haction Hcount.
  apply validate_action_plan_accepts in Hvalid.
  destruct (sanitize_well_formed_plan action_plan Hvalid)
    as (p & actions & _ & _ & _ & Hsan').
  rewrite Hsan' in Hsan. injection Hsan as <-.
  unfold Design.sanitize in Hin. apply in_map_iff in Hin as (a & <- & _).
  destruct (action_of_extract a action Haction) as (f & Hdetails & _).
  apply validate_action_returns. intros _.
  split; [exists f; exact Hdetails | exact Hcount].
Qed.

(** A plan with one well-typed scale entry. *)
Lemma validate_action_total_on_scale_to_three :
  exists verdict : bool * option string,
    fst (validate_action default_settings "scale" (Some "12345")
           (Fixtures.scale_details 3) Fixtures.fresh_world)
    = Ok verdict.
Proof.
  apply (validate_action_total_on_integral_counts Fixtures.types_repr
           default_settings
           (PyDict [("actions",
                     PyList [PyDict [("type", PyStr "scale");
                                     ("deployment_id", PyStr "12345");
                                     ("new_count", PyInt 3)]])])
           [PyDict [("type", PyStr "scale");
                    ("deployment_id", PyStr "12345");
                    ("details", Fixtures.scale_details 3)]]
           (PyDict [("type", PyStr "scale");
                    ("deployment_id", PyStr "12345");
                    ("details", Fixtures.scale_details 3)])
           (Fixtures.scale_to "12345" 3)
           Fixtures.fresh_world).
  - reflexivity.
  - reflexivity.
  - left. reflexivity.
  - reflexivity.
  - reflexivity.
Defined.

(** A scale entry whose [new_count] is the string [five] passes
    validation and sanitization, and the guardrail's comparison raises
    [TypeError] on it; in the loop the exception escapes
    [_execute_action] and leaves the record pending. *)
Lemma validate_action_raises_on_string_count :
  let action_plan :=
    PyDict [("reasoning", PyStr "scale up");
            ("actions",
             PyList [PyDict [("type", PyStr "scale");
                             ("deployment_id", PyStr "12345");
                             ("new_count", PyStr "five")]])] in
  let details :=
    PyDict [("new_count", PyStr "five"); ("reason", PyStr "LLM recommendation")] in
  let entry :=
    PyDict [("type", PyStr "scale"); ("deployment_id", PyStr "12345");
            ("details", details)] in
  let action :=
    {| AutopilotAgent.act_type := "scale";
       AutopilotAgent.act_deployment_id := Some "12345";
       AutopilotAgent.act_details := details |} in
  let run :=
    AutopilotAgent._execute_action default_settings Fixtures.mock_get_deployment
      Fixtures.no_message action Fixtures.fresh_world in
  validate_action_plan Fixtures.types_repr action_plan = Ok (true, None)
  /\ sanitize_action_plan action_plan = Ok [entry]
  /\ AutopilotAgent.action_of_value entry = Some action
  /\ fst (validate_action default_settings "scale" (Some "12345") details
            Fixtures.fresh_world)
     = Raise TypeError
  /\ fst run = Raise TypeError
  /\ map a_status (action_ledger (conn (snd run))) = ["pending"].
Proof. repeat split; vm_compute; reflexivity. Qed.

(** ** The action path of the loop *)

Section ActionPath.
Variable settings : Settings.
Variable get_deployment : option string -> result value.
Variable str_of_exn : exn -> string.

(** The row [log_action] has just written is among those the hourly
    count sees, as long as the count is taken within the hour. *)
Lemma counted_own_row (since timestamp : Z) (action_type : string)
    (deployment_id : option string) (details : option value)
    (status : string) (error : option string) (id : Z) :
  since <= timestamp ->
  counted since (Some action_type)
    {| a_id := id; a_timestamp := timestamp; a_action_type := action_type;
       a_deployment_id := deployment_id; a_details := details;
       a_status := status; a_error := error |}
  = true.
Proof.
  intros Hsince. unfold counted. cbn [a_timestamp a_action_type].
  apply Z.leb_le in Hsince. rewrite Hsince, String.eqb_refl.
  destruct (negb (String.eqb action_type "")); reflexivity.
Qed.

Lemma check_rate_limits_conn (action_type : string) (w : World) :
  conn (snd (_check_rate_limits settings action_type w)) = conn w.
Proof.
  rewrite check_rate_limits_run.
  destruct (_ <=? _); [reflexivity |].
  destruct (_ <=? _); reflexivity.
Qed.

Lemma validate_action_rate_limited_run (action_type : string)
    (deployment_id : option string) (details : value) (w : World) :
  fst (_check_rate_limits settings action_type w) = Ok false ->
  validate_action settings action_type deployment_id details w
  = (Ok (false, Some ("Rate limit exceeded for " +:+ action_type)),
     snd (_check_rate_limits settings action_type w)).
Proof.
  unfold validate_action, bind.
  destruct (_check_rate_limits settings action_type w) as [[[|] | e] w1];
    cbn [fst snd]; try discriminate.
  intros _. reflexivity.
Qed.

(** With a ceiling of at most one action per hour, an action submitted to
    an empty ledger within the hour is blocked by its own pending record,
    and no cooldown is written. *)
Lemma execute_action_blocked_by_own_record (action : AutopilotAgent.Action)
    (w : World) :
  max_actions_per_hour settings <= 1 ->
  action_ledger (conn w) = [] ->
  clock w (S (reads w)) - one_hour <= clock w (reads w) ->
  let w' := snd (AutopilotAgent._execute_action settings get_deployment
                   str_of_exn action w) in
  map (fun r => (a_action_type r, a_status r, a_error r))
      (action_ledger (conn w'))
  = [(AutopilotAgent.act_type action, "blocked",
      Some ("Rate limit exceeded for " +:+ AutopilotAgent.act_type action))]
  /\ cooldowns (conn w') = cooldowns (conn w).
Proof.
  intros Hmax Hempty Hclock.
  unfold AutopilotAgent._execute_action, log_action, bind, utcnow, execute, query.
  cbn [tick conn clock reads fst snd].
  set (w1 := {| conn := _; clock := clock w; reads := S (reads w) |}).
  assert (Hrate : fst (_check_rate_limits settings (AutopilotAgent.act_type action) w1)
                  = Ok false).
  { rewrite check_rate_limits_run.
    assert (Hcount : Design.count_hour (AutopilotAgent.act_type action) w1 = 1).
    { unfold Design.count_hour, select_count_actions. subst w1.
      cbn [conn clock reads insert_action action_ledger].
      rewrite Hempty. cbn [app List.filter].
      rewrite counted_own_row by exact Hclock. reflexivity. }
    rewrite Hcount.
    destruct (Z.leb_spec (max_actions_per_hour settings) 1); [reflexivity | lia]. }
  rewrite (validate_action_rate_limited_run _ _ _ w1 Hrate).
  cbn [fst snd negb]. unfold update_action_status, execute.
  cbn [snd conn update_ledger action_ledger cooldowns].
  rewrite check_rate_limits_conn. subst w1.
  cbn [conn insert_action action_ledger action_ledger_seq cooldowns].
  rewrite Hempty. cbn [app map set_status a_id].
  unfold set_status. cbn [a_id]. rewrite Z.eqb_refl. split; reflexivity.
Qed.

End ActionPath.

(** C1 (the code at the scenario). Policy [{max_actions_per_hour: 1}], an
    empty ledger, two consecutive scale actions for deployment 12345 a few
    microseconds apart: both records end [blocked] with the rate-limit
    reason and no cooldown is written.  The first action is counted
    against itself, because its pending record is in the ledger when the
    hourly count is taken. *)
Theorem two_scale_actions_one_per_hour :
  let w :=
    snd (AutopilotAgent.execute_actions Fixtures.one_per_hour
           Fixtures.mock_get_deployment Fixtures.no_message
           [Fixtures.scale_to "12345" 2; Fixtures.scale_to "12345" 3]
           Fixtures.fresh_world) in
  map (fun r => (a_id r, a_action_type r, a_status r, a_error r))
      (action_ledger (conn w))
  = [(1, "scale", "blocked", Some "Rate limit exceeded for scale");
     (2, "scale", "blocked", Some "Rate limit exceeded for scale")]
  /\ cooldowns (conn w) = [].
Proof. split; vm_compute; reflexivity. Qed.

(** With a ceiling of two the same run gives what the scenario describes:
    the first action completes and cools down, the second is blocked on
    the rate limit. *)
Example two_scale_actions_two_per_hour :
  let w :=
    snd (AutopilotAgent.execute_actions
           {| max_actions_per_hour := 2; max_actions_per_day := 50;
              scale_cooldown_seconds := 3600; redeploy_cooldown_seconds := 7200 |}
           Fixtures.mock_get_deployment Fixtures.no_message
           [Fixtures.scale_to "12345" 2; Fixtures.scale_to "12345" 3]
           Fixtures.fresh_world) in
  map (fun r => (a_id r, a_status r, a_error r)) (action_ledger (conn w))
  = [(1, "completed", None);
     (2, "blocked", Some "Rate limit exceeded for scale")]
  /\ map (fun r => (c_action_type r, c_deployment_id r)) (cooldowns (conn w))
     = [("scale", Some "12345")].
Proof. split; vm_compute; reflexivity. Qed.

(** * Further properties of the store *)

(** ** Cooldown housekeeping *)




(** ** Counting the ledger *)

Lemma select_count_actions_update (since : Z) (filter_type : option string)
    (c : Conn) (action_id : Z) (status : string) (error : option string) :
  select_count_actions since filter_type (update_ledger action_id status error c)
  = select_count_actions since filter_type c.
Proof.
  unfold select_count_actions, update_ledger. cbn [action_ledger].
  f_equal. induction (action_ledger c) as [| r rows IH]; [reflexivity |].
  cbn [map List.filter].
  replace (counted since filter_type (set_status action_id status error r))
    with (counted since filter_type r).
  - destruct (counted since filter_type r); cbn [length]; rewrite IH; reflexivity.
  - unfold counted, set_status. destruct (a_id r =? action_id); reflexivity.
Qed.

Lemma select_count_actions_insert (since : Z) (filter_type : option string)
    (c : Conn) (timestamp : Z) (action_type : string)
    (deployment_id : option string) (details : value) (status : string)
    (error : option string) :
  select_count_actions since filter_type
    (insert_action timestamp action_type deployment_id details status error c)
  = select_count_actions since filter_type c
    + (if (since <=? timestamp)
          && (negb (truthy_str filter_type)
              || String.eqb action_type
                   (match filter_type with Some t => t | None => "" end))
       then 1 else 0).
Proof.
  unfold select_count_actions, insert_action. cbn [action_ledger].
  rewrite List.filter_app, List.length_app, Nat2Z.inj_add. f_equal.
  cbn [List.filter]. unfold counted. cbn [a_timestamp a_action_type].
  destruct filter_type as [t |]; cbn [truthy_str].
  - destruct (negb (String.eqb t "")); cbn [negb orb].
    + destruct ((since <=? timestamp) && String.eqb action_type t); reflexivity.
    + rewrite andb_true_r. destruct (since <=? timestamp); reflexivity.
  - cbn [negb orb]. rewrite andb_true_r.
    destruct (since <=? timestamp); reflexivity.
Qed.

(** X2. The rate-limit count does not look at the status: rewriting the
    status and error of any record leaves every count unchanged, so
    blocked and failed attempts weigh on the rate limit like completed
    ones.  Logging an action raises by one the counts whose window and
    type filter it falls under, and leaves the others as they were. *)
Theorem count_actions_since_ignores_status :
  forall (since : Z) (filter_type : option string) (c : Conn),
    (forall (action_id : Z) (status : string) (error : option string),
        select_count_actions since filter_type (update_ledger action_id status error c)
        = select_count_actions since filter_type c)
    /\ (forall (timestamp : Z) (action_type : string) (deployment_id : option string)
               (details : value) (status : string) (error : option string),
          select_count_actions since filter_type
            (insert_action timestamp action_type deployment_id details status error c)
          = select_count_actions since filter_type c
            + (if (since <=? timestamp)
                  && (negb (truthy_str filter_type)
                      || String.eqb action_type
                           (match filter_type with Some t => t | None => "" end))
               then 1 else 0)).
Proof.
  intros since filter_type c. split.
  - intros. apply select_count_actions_update.
  - intros. apply select_count_actions_insert.
Qed.

(** ** The guardrail reads, the loop writes *)

Section ReadOnly.
Variable settings : Settings.

Lemma check_rate_limits_world (action_type : string) (w : World) :
  let w' := snd (_check_rate_limits settings action_type w) in
  conn w' = conn w /\ clock w' = clock w
  /\ (reads w < reads w' <= reads w + 2)%nat.
Proof.
  cbn zeta. rewrite check_rate_limits_run.
  destruct (_ <=? _); [cbn; repeat split; lia |].
  destruct (_ <=? _); cbn; repeat split; lia.
Qed.

(** A denial always comes with a reason. *)
Lemma validate_scale_action_denial (details : value) (reason : option string) :
  _validate_scale_action details = Ok (false, reason) ->
  exists text : string, reason = Some text.
Proof.
  unfold _validate_scale_action.
  destruct (truthy details); cbn [negb];
    [| intros H; injection H as <-; eexists; reflexivity].
  destruct (get details "new_count" PyNone) as [new_count | e]; cbn [rbind];
    [| discriminate].
  destruct new_count as [| b | n | x shown | s | l | d]; cbn [number_of]; try discriminate.
  - intros H; injection H as <-; eexists; reflexivity.
  - destruct (Z.b2z b <? 0); [intros H; injection H as <-; eexists; reflexivity |].
    destruct (10 <? Z.b2z b); [intros H; injection H as <-; eexists; reflexivity |].
    discriminate.
  - destruct (n <? 0); [intros H; injection H as <-; eexists; reflexivity |].
    destruct (10 <? n); [intros H; injection H as <-; eexists; reflexivity |].
    discriminate.
  - destruct (x <? 0)%float; [intros H; injection H as <-; eexists; reflexivity |].
    destruct (10 <? x)%float; [intros H; injection H as <-; eexists; reflexivity |].
    discriminate.
Qed.

End ReadOnly.

Lemma validate_action_world :
  forall (settings : Settings) (action_type : string)
         (deployment_id : option string) (details : value) (w : World),
    let run := validate_action settings action_type deployment_id details w in
    conn (snd run) = conn w
    /\ clock (snd run) = clock w
    /\ (reads w < reads (snd run) <= reads w + 3)%nat
    /\ (forall reason : option string,
          fst run = Ok (false, reason) -> exists text : string, reason = Some text)
    /\ (forall reason : option string,
          fst run = Ok (true, reason) ->
          reason = None /\ reads (snd run) = (reads w + 3)%nat).
Proof.
  intros settings action_type deployment_id details w. cbn zeta.
  unfold validate_action, bind. rewrite check_rate_limits_run.
  destruct (_ <=? _).
  { cbn [fst snd negb ret tick conn clock reads].
    split; [reflexivity |]. split; [reflexivity |]. split; [lia |].
    split; intros reason H; [| discriminate].
    injection H as <-. eexists; reflexivity. }
  destruct (_ <=? _).
  { cbn [fst snd negb ret tick conn clock reads].
    split; [reflexivity |]. split; [reflexivity |]. split; [lia |].
    split; intros reason H; [| discriminate].
    injection H as <-. eexists; reflexivity. }
  cbn [negb]. rewrite check_cooldown_run.
  destruct (0 <? _).
  { cbn [fst snd ret tick conn clock reads].
    split; [reflexivity |]. split; [reflexivity |]. split; [lia |].
    split; intros reason H; [| discriminate].
    injection H as <-. eexists; reflexivity. }
  destruct (String.eqb action_type "scale").
  { unfold lift.
    destruct (_validate_scale_action details) as [[[|] reason'] | e] eqn:Hv;
      cbn [fst snd negb ret tick conn clock reads];
      (split; [reflexivity |]); (split; [reflexivity |]); (split; [lia |]);
      split; intros reason H; try discriminate.
    - injection H as <-. split; [reflexivity | lia].
    - injection H as <-. apply (validate_scale_action_denial details), Hv. }
  destruct (String.eqb action_type "redeploy").
  { unfold _validate_redeploy_action.
    destruct (truthy_str deployment_id);
      cbn [fst snd negb ret bind get_deployment_state query tick conn clock reads];
      (split; [reflexivity |]); (split; [reflexivity |]); (split; [lia |]);
      split; intros reason H; try discriminate.
    - injection H as <-. split; [reflexivity | lia].
    - injection H as <-. eexists; reflexivity. }
  cbn [fst snd ret tick conn clock reads].
  split; [reflexivity |]. split; [reflexivity |]. split; [lia |].
  split; intros reason H; [discriminate |].
  injection H as <-. split; [reflexivity | lia].
Qed.

(** X3. [validate_action] only reads: whatever its arguments and whether it
    returns or raises, the tables and the clock are as before and between
    one and three readings of the clock were taken.  A verdict that
    denies carries a reason; one that allows carries none and has taken
    all three readings. *)
Theorem validate_action_reads_only :
  forall (settings : Settings) (action_type : string)
         (deployment_id : option string) (details : value) (w : World),
    let run := validate_action settings action_type deployment_id details w in
    conn (snd run) = conn w
    /\ clock (snd run) = clock w
    /\ (reads w < reads (snd run) <= reads w + 3)%nat
    /\ (forall reason : option string,
          fst run = Ok (false, reason) -> exists text : string, reason = Some text)
    /\ (forall reason : option string,
          fst run = Ok (true, reason) ->
          reason = None /\ reads (snd run) = (reads w + 3)%nat).
Proof. exact validate_action_world. Qed.

(** X4. For a redeploy action that neither rate limit nor cooldown stops,
    the verdict depends on the deployment id alone: a non-empty id is
    allowed, whether or not the deployment is in [deployment_state] and
    whatever the details; a null or empty id is denied with
    [Redeploy action requires deployment_id]. *)
Theorem validate_action_redeploy_needs_id :
  forall (settings : Settings) (deployment_id : option string) (details : value)
         (w w1 : World),
    _check_rate_limits settings "redeploy" w = (Ok true, w1) ->
    fst (check_cooldown "redeploy" deployment_id w1) = Ok false ->
    fst (validate_action settings "redeploy" deployment_id details w)
    = if truthy_str deployment_id then Ok (true, None)
      else Ok (false, Some "Redeploy action requires deployment_id").
Proof.
  intros settings deployment_id details w w1 Hrate Hcool.
  unfold validate_action, bind. rewrite Hrate. cbn [negb].
  rewrite check_cooldown_run in *. cbn [fst] in Hcool. injection Hcool as ->.
  cbn [String.eqb Ascii.eqb Bool.eqb]. unfold _validate_redeploy_action.
  destruct (truthy_str deployment_id); reflexivity.
Qed.

(** A redeploy of a deployment the store has never seen is allowed; one
    without a deployment id is not. *)
Lemma validate_action_redeploy_unknown_deployment :
  fst (validate_action default_settings "redeploy" (Some "99999") PyNone
         Fixtures.fresh_world)
  = Ok (true, None).
Proof.
  apply (validate_action_redeploy_needs_id default_settings (Some "99999") PyNone
           Fixtures.fresh_world (tick (tick Fixtures.fresh_world))
           eq_refl eq_refl).
Defined.

(** ** One action through the loop *)

Section OneAction.
Variable settings : Settings.
Variable get_deployment : option string -> result value.
Variable str_of_exn : exn -> string.

(** With every stored id at or below the counter, the update that follows
    [log_action] touches the new record only. *)
Lemma update_ledger_new_row (rows : list ActionRow) (seq : Z) (new : ActionRow)
    (status : string) (error : option string) :
  Forall (fun r => a_id r <= seq) rows ->
  a_id new = seq + 1 ->
  map (set_status (seq + 1) status error) (rows ++ [new])
  = rows ++ [set_status (seq + 1) status error new].
Proof.
  intros Hrows Hnew. rewrite map_app. cbn [map]. f_equal.
  induction Hrows as [| r rows Hr _ IH]; [reflexivity |].
  cbn [map]. rewrite IH. f_equal.
  apply set_status_miss. lia.
Qed.

(** The guarded execution step always yields an outcome and touches
    nothing; a success carries no error. *)
Lemma execution_outcome (action_type : string) (deployment_id : option string)
    (details : value) (w : World) :
  exists (success : bool) (error : option string),
    try_except
      (if String.eqb action_type "scale" then
         bind (AutopilotAgent._execute_scale get_deployment deployment_id details)
              (fun success => ret (success, None))
       else if String.eqb action_type "redeploy" then
         bind (AutopilotAgent._execute_redeploy get_deployment deployment_id details)
              (fun success => ret (success, None))
       else ret (false, Some ("Unknown action type: " +:+ action_type)))
      (fun e => ret (false, Some (str_of_exn e))) w
    = (Ok (success, error), w)
    /\ (success = true -> error = None)
    /\ (success = true ->
        (action_type = "scale" \/ action_type = "redeploy")
        /\ exists deployment : value,
             get_deployment deployment_id = Ok deployment
             /\ truthy deployment = true).
Proof.
  unfold try_except, AutopilotAgent._execute_scale, AutopilotAgent._execute_redeploy,
    bind, lift, ret.
  destruct (String.eqb_spec action_type "scale") as [Hs | Hs].
  - destruct (get details "new_count" PyNone);
      [| do 2 eexists; split; [reflexivity | split; discriminate]].
    destruct (get details "reason" (PyStr "LLM recommendation"));
      [| do 2 eexists; split; [reflexivity | split; discriminate]].
    destruct (get_deployment deployment_id) as [deployment | e] eqn:Hd;
      [| do 2 eexists; split; [reflexivity | split; discriminate]].
    destruct (truthy deployment) eqn:Ht; cbn [negb];
      do 2 eexists; (split; [reflexivity | split; try discriminate]).
    + reflexivity.
    + intros _. split; [left; exact Hs | exists deployment; split; auto].
  - destruct (String.eqb_spec action_type "redeploy") as [Hr | Hr].
    + destruct (get details "reason" (PyStr "LLM recommendation"));
        [| do 2 eexists; split; [reflexivity | split; discriminate]].
      destruct (get_deployment deployment_id) as [deployment | e] eqn:Hd;
        [| do 2 eexists; split; [reflexivity | split; discriminate]].
      destruct (truthy deployment) eqn:Ht; cbn [negb];
        do 2 eexists; (split; [reflexivity | split; try discriminate]).
      * reflexivity.
      * intros _. split; [right; exact Hr | exists deployment; split; auto].
    + do 2 eexists. split; [reflexivity | split; discriminate].
Qed.

Lemma log_action_run (action_type : string) (deployment_id : option string)
    (details : value) (status : string) (error : option string) (w : World) :
  log_action action_type deployment_id details status error w
  = (Ok (action_ledger_seq (conn w) + 1),
     {| conn := insert_action (clock w (reads w)) action_type deployment_id details
                  status error (conn w);
        clock := clock w;
        reads := S (reads w) |}).
Proof. reflexivity. Qed.

(** What one pass of [_execute_action] leaves behind. *)
Lemma execute_action_shape (action : AutopilotAgent.Action) (w : World) :
  Forall (fun r => a_id r <= action_ledger_seq (conn w)) (action_ledger (conn w)) ->
  let run := AutopilotAgent._execute_action settings get_deployment str_of_exn
               action w in
  exists (status : string) (error : option string),
    action_ledger (conn (snd run))
    = action_ledger (conn w)
      ++ [ {| a_id := action_ledger_seq (conn w) + 1;
              a_timestamp := clock w (reads w);
              a_action_type := AutopilotAgent.act_type action;
              a_deployment_id := AutopilotAgent.act_deployment_id action;
              a_details := if truthy (AutopilotAgent.act_details action)
                           then Some (AutopilotAgent.act_details action)
                           else None;
              a_status := status;
              a_error := error |} ]
    /\ action_ledger_seq (conn (snd run)) = action_ledger_seq (conn w) + 1
    /\ deployment_state (conn (snd run)) = deployment_state (conn w)
    /\ clock (snd run) = clock w
    /\ ((fst run = Ok tt /\ status = "blocked"
         /\ (exists text : string, error = Some text)
         /\ cooldowns (conn (snd run)) = cooldowns (conn w))
        \/ (fst run = Ok tt /\ status = "failed"
            /\ cooldowns (conn (snd run)) = cooldowns (conn w))
        \/ (fst run = Ok tt /\ status = "completed" /\ error = None
            /\ (AutopilotAgent.act_type action = "scale"
                \/ AutopilotAgent.act_type action = "redeploy")
            /\ (exists deployment : value,
                  get_deployment (AutopilotAgent.act_deployment_id action)
                  = Ok deployment
                  /\ truthy deployment = true)
            /\ cooldowns (conn (snd run))
               = cooldowns (conn w)
                 ++ [ {| c_id := cooldowns_seq (conn w) + 1;
                         c_action_type := AutopilotAgent.act_type action;
                         c_deployment_id := AutopilotAgent.act_deployment_id action;
                         c_expires_at :=
                           clock w (reads w + 4)%nat
                           + cooldown_seconds settings (AutopilotAgent.act_type action)
                             * usec |} ])
        \/ (exists e : exn, fst run = Raise e /\ status = "pending" /\ error = None
            /\ cooldowns (conn (snd run)) = cooldowns (conn w))).
Proof.
  intros Hids. cbn zeta.
  destruct (AutopilotAgent._execute_action settings get_deployment str_of_exn
              action w) as [r w'] eqn:Hrun.
  cbn [fst snd]. revert Hrun.
  unfold AutopilotAgent._execute_action. cbn zeta.
  unfold bind at 1. rewrite log_action_run.
  set (t := AutopilotAgent.act_type action).
  set (d := AutopilotAgent.act_deployment_id action).
  set (det := AutopilotAgent.act_details action).
  set (new := {| a_id := action_ledger_seq (conn w) + 1;
                 a_timestamp := clock w (reads w); a_action_type := t;
                 a_deployment_id := d;
                 a_details := if truthy det then Some det else None;
                 a_status := "pending"; a_error := None |}).
  set (w1 := {| conn := _; clock := clock w; reads := S (reads w) |}).
  assert (Hledger1 : action_ledger (conn w1) = action_ledger (conn w) ++ [new])
    by reflexivity.
  assert (Hupdate : forall status error,
             map (set_status (action_ledger_seq (conn w) + 1) status error)
                 (action_ledger (conn w1))
             = action_ledger (conn w)
               ++ [ {| a_id := action_ledger_seq (conn w) + 1;
                       a_timestamp := clock w (reads w); a_action_type := t;
                       a_deployment_id := d;
                       a_details := if truthy det then Some det else None;
                       a_status := status; a_error := error |} ]).
  { intros status error. rewrite Hledger1.
    rewrite (update_ledger_new_row _ _ new status error Hids eq_refl).
    unfold set_status, new. cbn [a_id]. rewrite Z.eqb_refl. reflexivity. }
  unfold bind at 1.
  pose proof (validate_action_world settings t d det w1) as Hworld.
  cbn zeta in Hworld.
  destruct (validate_action settings t d det w1) as [[[allowed reason] | e] w2] eqn:Hv;
    cbn [fst snd] in Hworld;
    destruct Hworld as (Hconn & Hclock & Hreads & Hdeny & Hallow).
  2: { intros H. injection H as <- <-.
       exists "pending", None. rewrite Hconn.
       split; [exact Hledger1 |]. split; [reflexivity |]. split; [reflexivity |].
       split; [exact Hclock |].
       right. right. right. exists e. repeat split. }
  destruct allowed; cbn [fst snd negb].
  2: { destruct (Hdeny reason eq_refl) as [text ->].
       unfold update_action_status, execute.
       intros H. injection H as <- <-.
       exists "blocked", (Some text).
       cbn [conn update_ledger action_ledger action_ledger_seq deployment_state
         cooldowns clock].
       rewrite Hconn, Hupdate.
       split; [reflexivity |]. split; [reflexivity |]. split; [reflexivity |].
       split; [exact Hclock |].
       left. split; [reflexivity |]. split; [reflexivity |].
       split; [exists text; reflexivity | reflexivity]. }
  destruct (Hallow reason eq_refl) as [-> Hreads3].
  unfold bind at 1.
  destruct (execution_outcome t d det w2) as (success & error & -> & Hnone & Hfound).
  cbn [fst snd]. unfold bind at 1.
  unfold update_action_status, execute.
  destruct success.
  - rewrite (Hnone eq_refl). destruct (Hfound eq_refl) as [Htype Hdep].
    unfold apply_cooldown, set_cooldown, bind, utcnow, execute.
    cbn [tick conn clock reads].
    intros H. injection H as <- <-.
    exists "completed", None.
    cbn [conn clock reads update_ledger insert_cooldown action_ledger
      action_ledger_seq deployment_state cooldowns cooldowns_seq].
    rewrite Hconn, Hupdate, Hclock, Hreads3.
    split; [reflexivity |]. split; [reflexivity |]. split; [reflexivity |].
    split; [reflexivity |].
    right. right. left.
    split; [reflexivity |]. split; [reflexivity |]. split; [reflexivity |].
    split; [exact Htype |]. split; [exact Hdep |].
    subst w1. cbn [conn clock reads insert_action cooldowns cooldowns_seq].
    replace (S (reads w) + 3)%nat with (reads w + 4)%nat by lia.
    reflexivity.
  - unfold ret. intros H. injection H as <- <-.
    exists "failed", error.
    cbn [conn update_ledger action_ledger action_ledger_seq
      deployment_state cooldowns clock].
    rewrite Hconn, Hupdate.
    split; [reflexivity |]. split; [reflexivity |]. split; [reflexivity |].
    split; [exact Hclock |].
    right. left. repeat split.
Qed.

End OneAction.

(** X5. With every stored id at or below the counter, one pass of
    [_execute_action] appends exactly one record, carrying the action's
    type, deployment id and details and the instant of logging, and
    touches no earlier record.  The record ends [blocked] with a reason
    and no cooldown written; or [failed] with no cooldown written; or
    [completed] with no error, only for a scale or redeploy whose
    deployment the console returned, and then exactly one cooldown row
    for the action's type and deployment is appended, expiring the
    configured duration after the fifth clock reading of the pass; or an
    exception escapes from validation and the record stays [pending]. *)
Theorem execute_action_outcome :
  forall (settings : Settings) (get_deployment : option string -> result value)
         (str_of_exn : exn -> string) (action : AutopilotAgent.Action) (w : World),
    Forall (fun r => a_id r <= action_ledger_seq (conn w)) (action_ledger (conn w)) ->
    let run := AutopilotAgent._execute_action settings get_deployment str_of_exn
                 action w in
    exists (status : string) (error : option string),
      action_ledger (conn (snd run))
      = action_ledger (conn w)
        ++ [ {| a_id := action_ledger_seq (conn w) + 1;
                a_timestamp := clock w (reads w);
                a_action_type := AutopilotAgent.act_type action;
                a_deployment_id := AutopilotAgent.act_deployment_id action;
                a_details := if truthy (AutopilotAgent.act_details action)
                             then Some (AutopilotAgent.act_details action)
                             else None;
                a_status := status;
                a_error := error |} ]
      /\ action_ledger_seq (conn (snd run)) = action_ledger_seq (conn w) + 1
      /\ deployment_state (conn (snd run)) = deployment_state (conn w)
      /\ clock (snd run) = clock w
      /\ ((fst run = Ok tt /\ status = "blocked"
           /\ (exists text : string, error = Some text)
           /\ cooldowns (conn (snd run)) = cooldowns (conn w))
          \/ (fst run = Ok tt /\ status = "failed"
              /\ cooldowns (conn (snd run)) = cooldowns (conn w))
          \/ (fst run = Ok tt /\ status = "completed" /\ error = None
              /\ (AutopilotAgent.act_type action = "scale"
                  \/ AutopilotAgent.act_type action = "redeploy")
              /\ (exists deployment : value,
                    get_deployment (AutopilotAgent.act_deployment_id action)
                    = Ok deployment
                    /\ truthy deployment = true)
              /\ cooldowns (conn (snd run))
                 = cooldowns (conn w)
                   ++ [ {| c_id := cooldowns_seq (conn w) + 1;
                           c_action_type := AutopilotAgent.act_type action;
                           c_deployment_id := AutopilotAgent.act_deployment_id action;
                           c_expires_at :=
                             clock w (reads w + 4)%nat
                             + cooldown_seconds settings (AutopilotAgent.act_type action)
                               * usec |} ])
          \/ (exists e : exn, fst run = Raise e /\ status = "pending" /\ error = None
              /\ cooldowns (conn (snd run)) = cooldowns (conn w))).
Proof.
  intros settings get_deployment str_of_exn action w.
  apply execute_action_shape.
Qed.

(** On a fresh store the pass leaves one record. *)
Lemma execute_action_outcome_on_fresh_store :
  length (action_ledger (conn (snd
    (AutopilotAgent._execute_action default_settings Fixtures.mock_get_deployment
       Fixtures.no_message (Fixtures.scale_to "12345" 2) Fixtures.fresh_world))))
  = 1%nat.
Proof.
  destruct (execute_action_outcome default_settings Fixtures.mock_get_deployment
              Fixtures.no_message (Fixtures.scale_to "12345" 2) Fixtures.fresh_world
              (@List.Forall_nil _ _))
    as (status & error & Hledger & _).
  rewrite Hledger. reflexivity.
Defined.

Section ManyActions.
Variable settings : Settings.
Variable get_deployment : option string -> result value.
Variable str_of_exn : exn -> string.

Lemma ledger_ok_bound (c : Conn) :
  Design.ledger_ok c ->
  Forall (fun r => a_id r <= action_ledger_seq c) (action_ledger c).
Proof. intros [_ H]. exact H. Qed.

Lemma execute_action_keeps_ledger_ok (action : AutopilotAgent.Action) (w : World) :
  Design.ledger_ok (conn w) ->
  let run := AutopilotAgent._execute_action settings get_deployment str_of_exn
               action w in
  Design.ledger_ok (conn (snd run))
  /\ exists row : ActionRow,
       action_ledger (conn (snd run)) = action_ledger (conn w) ++ [row].
Proof.
  intros [Hnodup Hbound]. cbn zeta.
  destruct (execute_action_shape settings get_deployment str_of_exn action w Hbound)
    as (status & error & Hledger & Hseq & _).
  split; [| eexists; exact Hledger].
  unfold Design.ledger_ok. rewrite Hledger, Hseq. split.
  - rewrite map_app. cbn [map a_id]. apply NoDup_app.
    split; [exact Hnodup |]. split; [| apply NoDup_singleton].
    intros id Hid Hnew. apply list_elem_of_singleton in Hnew. subst id.
    apply list_elem_of_In, in_map_iff in Hid as (r & Hr & Hin).
    rewrite Forall_forall in Hbound.
    apply list_elem_of_In, Hbound in Hin. lia.
  - apply Forall_app. split.
    + eapply Forall_impl; [exact Hbound |]. cbn. intros r Hr. lia.
    + constructor; [cbn; lia | constructor].
Qed.

Lemma execute_actions_append_only (actions : list AutopilotAgent.Action) :
  forall w : World,
    Design.ledger_ok (conn w) ->
    let run := AutopilotAgent.execute_actions settings get_deployment str_of_exn
                 actions w in
    Design.ledger_ok (conn (snd run))
    /\ (exists rows : list ActionRow,
           action_ledger (conn (snd run)) = action_ledger (conn w) ++ rows
           /\ (length rows <= length actions)%nat
           /\ (fst run = Ok tt -> length rows = length actions)).
Proof.
  induction actions as [| action rest IH]; intros w Hok; cbn zeta.
  - cbn [AutopilotAgent.execute_actions ret fst snd].
    split; [exact Hok |]. exists []. rewrite app_nil_r.
    split; [reflexivity |]. split; [cbn; lia | reflexivity].
  - destruct (AutopilotAgent.execute_actions settings get_deployment str_of_exn
                (action :: rest) w) as [r w'] eqn:Hrun.
    cbn [fst snd]. revert Hrun.
    cbn [AutopilotAgent.execute_actions]. unfold bind at 1.
    destruct (execute_action_keeps_ledger_ok action w Hok) as (Hok1 & row & Hrow).
    cbn zeta in Hok1, Hrow.
    destruct (AutopilotAgent._execute_action settings get_deployment str_of_exn
                action w) as [[[] | e] w1]; cbn [fst snd] in Hok1, Hrow.
    + intros Hrun.
      destruct (IH w1 Hok1) as (Hok2 & rows & Hrows & Hlen & Hall).
      cbn zeta in Hok2, Hrows, Hlen, Hall.
      rewrite Hrun in Hok2, Hrows, Hall. cbn [fst snd] in Hok2, Hrows, Hall.
      split; [exact Hok2 |]. exists (row :: rows).
      rewrite Hrows, Hrow, <- app_assoc. cbn [app length].
      split; [reflexivity |]. split; [lia |].
      intros Hr. rewrite (Hall Hr). reflexivity.
    + intros H. injection H as <- <-.
      split; [exact Hok1 |]. exists [row].
      split; [exact Hrow |]. split; [cbn; lia | discriminate].
Qed.

End ManyActions.

(** X6. The ledger is append-only under the loop: starting from a store
    whose ids are pairwise distinct and at or below the counter, running
    any list of actions keeps it so, leaves every earlier record exactly
    as it was, and adds at most one record per action, exactly one per
    action when no exception escapes. *)
Theorem execute_actions_append_only_ledger :
  forall (settings : Settings) (get_deployment : option string -> result value)
         (str_of_exn : exn -> string) (actions : list AutopilotAgent.Action)
         (w : World),
    Design.ledger_ok (conn w) ->
    let run := AutopilotAgent.execute_actions settings get_deployment str_of_exn
                 actions w in
    Design.ledger_ok (conn (snd run))
    /\ (exists rows : list ActionRow,
           action_ledger (conn (snd run)) = action_ledger (conn w) ++ rows
           /\ (length rows <= length actions)%nat
           /\ (fst run = Ok tt -> length rows = length actions)).
Proof.
  intros settings get_deployment str_of_exn actions w.
  apply execute_actions_append_only.
Qed.

(** Two actions on a fresh store leave two records with distinct ids. *)
Lemma execute_actions_append_only_ledger_two :
  Design.ledger_ok (conn (snd
    (AutopilotAgent.execute_actions default_settings Fixtures.mock_get_deployment
       Fixtures.no_message [Fixtures.scale_to "12345" 2; Fixtures.scale_to "67890" 3]
       Fixtures.fresh_world))).
Proof.
  refine (proj1 (execute_actions_append_only_ledger default_settings
                   Fixtures.mock_get_deployment Fixtures.no_message
                   [Fixtures.scale_to "12345" 2; Fixtures.scale_to "67890" 3]
                   Fixtures.fresh_world _)).
  split; [apply NoDup_nil_2 | apply List.Forall_nil].
Defined.

(** ** The rate limit inside the loop *)

(** X7. The hourly count taken during [_execute_action] includes the
    pending record the pass has just logged: when the count is taken
    within an hour of the logging, it is the number of same-type records
    of the trailing hour before the pass plus one.  So, with ids at or
    below the counter, an action is blocked with the rate-limit reason,
    and no cooldown is written, as soon as that earlier number plus one
    reaches [max_actions_per_hour]. *)
Theorem execute_action_counts_own_record :
  forall (settings : Settings) (get_deployment : option string -> result value)
         (str_of_exn : exn -> string) (action : AutopilotAgent.Action) (w : World),
    Forall (fun r => a_id r <= action_ledger_seq (conn w)) (action_ledger (conn w)) ->
    clock w (S (reads w)) - one_hour <= clock w (reads w) ->
    let t := AutopilotAgent.act_type action in
    let before :=
      select_count_actions (clock w (S (reads w)) - one_hour) (Some t) (conn w) in
    let logged :=
      snd (log_action t (AutopilotAgent.act_deployment_id action)
             (AutopilotAgent.act_details action) "pending" None w) in
    let run := AutopilotAgent._execute_action settings get_deployment str_of_exn
                 action w in
    Design.count_hour t logged = before + 1
    /\ (max_actions_per_hour settings <= before + 1 ->
        fst run = Ok tt
        /\ action_ledger (conn (snd run))
           = action_ledger (conn w)
             ++ [ {| a_id := action_ledger_seq (conn w) + 1;
                     a_timestamp := clock w (reads w);
                     a_action_type := t;
                     a_deployment_id := AutopilotAgent.act_deployment_id action;
                     a_details := if truthy (AutopilotAgent.act_details action)
                                  then Some (AutopilotAgent.act_details action)
                                  else None;
                     a_status := "blocked";
                     a_error := Some ("Rate limit exceeded for " +:+ t) |} ]
        /\ cooldowns (conn (snd run)) = cooldowns (conn w)).
Proof.
  intros settings get_deployment str_of_exn action w Hids Hclock t before logged run.
  assert (Hcount : Design.count_hour t logged = before + 1).
  { subst logged before. rewrite log_action_run. cbn [snd].
    unfold Design.count_hour. cbn [conn clock reads].
    rewrite select_count_actions_insert. f_equal.
    apply Z.leb_le in Hclock. rewrite Hclock. cbn [andb truthy_str].
    rewrite String.eqb_refl, orb_true_r. reflexivity. }
  split; [exact Hcount |].
  intros Hmax. subst run.
  destruct (AutopilotAgent._execute_action settings get_deployment str_of_exn
              action w) as [r w'] eqn:Hrun.
  cbn [fst snd]. revert Hrun.
  unfold AutopilotAgent._execute_action. cbn zeta.
  unfold bind at 1. rewrite log_action_run.
  fold t.
  change {| conn := insert_action (clock w (reads w)) t
                      (AutopilotAgent.act_deployment_id action)
                      (AutopilotAgent.act_details action) "pending" None (conn w);
            clock := clock w; reads := S (reads w) |}
    with logged.
  assert (Hrate : fst (_check_rate_limits settings t logged) = Ok false).
  { rewrite check_rate_limits_run, Hcount.
    destruct (Z.leb_spec (max_actions_per_hour settings) (before + 1));
      [reflexivity | lia]. }
  unfold bind at 1.
  rewrite (validate_action_rate_limited_run settings t _ _ logged Hrate).
  cbn [fst snd negb]. unfold update_action_status, execute.
  intros H. injection H as <- <-.
  cbn [conn update_ledger action_ledger cooldowns].
  rewrite check_rate_limits_conn.
  split; [reflexivity |]. split; [| reflexivity].
  subst logged. rewrite log_action_run. cbn [snd conn insert_action action_ledger].
  rewrite (update_ledger_new_row _ _ _ _ _ Hids); [| reflexivity].
  unfold set_status. cbn [a_id]. rewrite Z.eqb_refl. reflexivity.
Qed.

(** Nine scale records in the last hour and the default ceiling of ten:
    the tenth action is blocked. *)
Lemma execute_action_counts_own_record_tenth :
  let rows := map (fun k => Fixtures.past_scale k (k * 60 * usec))
                  [1; 2; 3; 4; 5; 6; 7; 8; 9] in
  let run := AutopilotAgent._execute_action default_settings
               Fixtures.mock_get_deployment Fixtures.no_message
               (Fixtures.scale_to "12345" 2) (Fixtures.world_with_ledger rows) in
  map a_status (action_ledger (conn (snd run)))
  = ["completed"; "completed"; "completed"; "completed"; "completed";
     "completed"; "completed"; "completed"; "completed"; "blocked"].
Proof.
  intros rows run.
  destruct (execute_action_counts_own_record default_settings
              Fixtures.mock_get_deployment Fixtures.no_message
              (Fixtures.scale_to "12345" 2) (Fixtures.world_with_ledger rows))
    as [_ Hblocked].
  - subst rows. repeat constructor; cbn; lia.
  - vm_compute. discriminate.
  - destruct Hblocked as (_ & Hledger & _).
    + vm_compute. discriminate.
    + subst run. rewrite Hledger. reflexivity.
Defined.

(** * Further properties of the plan validator *)

Section ValidatorEdges.
Variable repr : string.

(** An entry makes the loop raise exactly when it is a mapping whose type
    cannot be hashed. *)
Lemma check_action_raises (i : Z) (action : value) (e : exn) :
  check_action repr i action = Raise e
  <-> e = TypeError
      /\ exists (a : list (string * value)) (t : value),
           action = PyDict a /\ dict_get a "type" = Some t
           /\ hashable_str t = None.
Proof.
  unfold check_action. split.
  - destruct action as [| | | | | | a]; try discriminate.
    destruct (dict_get a "type") as [t |] eqn:Ht; [| discriminate].
    destruct (hashable_str t) as [shown |] eqn:Hshown.
    + destruct (negb (is_valid_type t)); [discriminate |].
      destruct (eq_str t "scale").
      { destruct (negb (dict_has a "deployment_id")); [discriminate |].
        destruct (negb (dict_has a "new_count")); discriminate. }
      destruct (eq_str t "redeploy"); [| discriminate].
      destruct (negb (dict_has a "deployment_id")); discriminate.
    + intros H. injection H as <-. split; [reflexivity |].
      exists a, t. auto.
  - intros (-> & a & t & -> & Ht & Hshown). rewrite Ht, Hshown. reflexivity.
Qed.

Lemma check_actions_raises (actions : list value) (e : exn) :
  forall i : Z,
    check_actions repr i actions = Raise e ->
    e = TypeError
    /\ exists (good : list value) (a : list (string * value)) (t : value)
              (rest : list value),
         actions = good ++ PyDict a :: rest
         /\ forallb Design.well_formed_action good = true
         /\ dict_get a "type" = Some t
         /\ hashable_str t = None.
Proof.
  induction actions as [| action rest IH]; intros i; [discriminate |].
  rewrite check_actions_cons.
  destruct (check_action repr i action) as [[msg |] | e'] eqn:Hcheck; cbn [rbind].
  - discriminate.
  - intros Hrest. destruct (IH (i + 1) Hrest) as (He & good & a & t & rest' & -> & Hgood & Ht & Hshown).
    split; [exact He |]. exists (action :: good), a, t, rest'.
    split; [reflexivity |]. split; [| auto].
    cbn [forallb]. rewrite Hgood.
    apply (check_action_accepts repr i) in Hcheck. rewrite Hcheck. reflexivity.
  - intros H. injection H as <-.
    apply check_action_raises in Hcheck as (-> & a & t & -> & Ht & Hshown).
    split; [reflexivity |]. exists [], a, t, rest. auto.
Qed.

End ValidatorEdges.

(** X8. [validate_action_plan] raises in one situation only: the plan is a
    mapping with an [actions] list, every entry before some entry is well
    formed, and that entry is a mapping whose [type] is a list or a
    mapping; the exception is then a [TypeError].  On every other input it
    returns a verdict. *)
Theorem validate_action_plan_raises_only_on_unhashable_type :
  forall (repr : string) (action_plan : value) (e : exn),
    validate_action_plan repr action_plan = Raise e
    <-> e = TypeError
        /\ exists (p : list (string * value)) (good : list value)
                  (a : list (string * value)) (t : value) (rest : list value),
             action_plan = PyDict p
             /\ dict_get p "actions" = Some (PyList (good ++ PyDict a :: rest))
             /\ forallb Design.well_formed_action good = true
             /\ dict_get a "type" = Some t
             /\ hashable_str t = None.
Proof.
  intros repr action_plan e. split.
  - unfold validate_action_plan.
    destruct action_plan as [| | | | | | p]; try discriminate.
    destruct (dict_get p "actions") as [actions |] eqn:Hactions; [| discriminate].
    destruct actions as [| | | | | actions |]; try discriminate.
    intros Hraise.
    destruct (check_actions_raises repr actions e 0 Hraise)
      as (He & good & a & t & rest & -> & Hgood & Ht & Hshown).
    split; [exact He |]. exists p, good, a, t, rest. auto.
  - intros (-> & p & good & a & t & rest & -> & Hactions & Hgood & Ht & Hshown).
    unfold validate_action_plan. rewrite Hactions.
    rewrite (check_actions_first_offender repr good _ rest 0 Hgood).
    rewrite check_actions_cons.
    replace (check_action repr (0 + Z.of_nat (length good)) (PyDict a))
      with (@Raise (option string) TypeError); [reflexivity |].
    symmetry. apply check_action_raises. split; [reflexivity |].
    exists a, t. auto.
Qed.

(** X9. The rejections of [validate_action_plan] besides an invalid type
    and a missing [new_count]: a plan that is not a mapping, one without
    an [actions] key, one whose [actions] is not a list; and, at the first
    offending entry (index counted from 0), an entry that is not a
    mapping, one without a [type], a scale entry without [deployment_id]
    (whether or not [new_count] is there), a redeploy entry without
    [deployment_id]. *)
Theorem validate_action_plan_rejections :
  forall (repr : string) (action_plan : value),
    ((forall p : list (string * value), action_plan <> PyDict p) ->
     validate_action_plan repr action_plan
     = Ok (false, Some "Action plan must be a dictionary"))
    /\ (forall p : list (string * value),
          action_plan = PyDict p ->
          (dict_get p "actions" = None ->
           validate_action_plan repr action_plan
           = Ok (false, Some "Action plan must contain 'actions' key"))
          /\ (forall actions : value,
                dict_get p "actions" = Some actions ->
                (forall l : list value, actions <> PyList l) ->
                validate_action_plan repr action_plan
                = Ok (false, Some "'actions' must be a list"))
          /\ (forall (good : list value) (bad : value) (rest : list value),
                dict_get p "actions" = Some (PyList (good ++ bad :: rest)) ->
                forallb Design.well_formed_action good = true ->
                let i := pretty (Z.of_nat (length good)) in
                ((forall a : list (string * value), bad <> PyDict a) ->
                 validate_action_plan repr action_plan
                 = Ok (false, Some ("Action " +:+ i +:+ " must be a dictionary")))
                /\ (forall a : list (string * value),
                      bad = PyDict a ->
                      (dict_get a "type" = None ->
                       validate_action_plan repr action_plan
                       = Ok (false, Some ("Action " +:+ i +:+ " missing 'type' field")))
                      /\ (dict_get a "type" = Some (PyStr "scale") ->
                          dict_has a "deployment_id" = false ->
                          validate_action_plan repr action_plan
                          = Ok (false, Some ("Scale action " +:+ i
                                             +:+ " missing 'deployment_id'")))
                      /\ (dict_get a "type" = Some (PyStr "redeploy") ->
                          dict_has a "deployment_id" = false ->
                          validate_action_plan repr action_plan
                          = Ok (false, Some ("Redeploy action " +:+ i
                                             +:+ " missing 'deployment_id'")))))).
Proof.
  intros repr action_plan. split.
  { intros Hnot. destruct action_plan as [| | | | | | p]; try reflexivity.
    destruct (Hnot p eq_refl). }
  intros p ->. split.
  { intros Hnone. unfold validate_action_plan. rewrite Hnone. reflexivity. }
  split.
  { intros actions Hactions Hnot. unfold validate_action_plan. rewrite Hactions.
    destruct actions as [| | | | | l |]; try reflexivity.
    destruct (Hnot l eq_refl). }
  intros good bad rest Hactions Hgood i.
  assert (Hrun : validate_action_plan repr (PyDict p)
                 = check_actions repr (Z.of_nat (length good)) (bad :: rest)).
  { unfold validate_action_plan. rewrite Hactions.
    rewrite (check_actions_first_offender repr good bad rest 0 Hgood).
    reflexivity. }
  rewrite Hrun, check_actions_cons. subst i. split.
  { intros Hnot. destruct bad as [| | | | | | a]; try reflexivity.
    destruct (Hnot a eq_refl). }
  intros a ->. unfold check_action. split.
  { intros Ht. rewrite Ht. reflexivity. }
  split.
  - intros Ht Hdep. rewrite Ht, Hdep. reflexivity.
  - intros Ht Hdep. rewrite Ht, Hdep. reflexivity.
Qed.

(** A plan that is a list; a redeploy, second entry, without deployment id. *)
Lemma validate_action_plan_rejections_examples :
  validate_action_plan Fixtures.types_repr (PyList [])
  = Ok (false, Some "Action plan must be a dictionary")
  /\ validate_action_plan Fixtures.types_repr
       (PyDict [("actions", PyList [PyDict [("type", PyStr "no_action")];
                                    PyDict [("type", PyStr "redeploy")]])])
     = Ok (false, Some "Redeploy action 1 missing 'deployment_id'").
Proof.
  split.
  - apply (proj1 (validate_action_plan_rejections Fixtures.types_repr (PyList []))).
    discriminate.
  - destruct (proj2 (validate_action_plan_rejections Fixtures.types_repr
                       (PyDict [("actions",
                                 PyList [PyDict [("type", PyStr "no_action")];
                                         PyDict [("type", PyStr "redeploy")]])]))
                _ eq_refl) as (_ & _ & H).
    destruct (H [PyDict [("type", PyStr "no_action")]]
                (PyDict [("type", PyStr "redeploy")]) [] eq_refl eq_refl)
      as (_ & Hentry).
    destruct (Hentry _ eq_refl) as (_ & _ & Hredeploy).
    exact (Hredeploy eq_refl eq_refl).
Defined.

(** * Further properties of sanitization *)

Lemma has_type_inv (action : value) :
  Design.has_type action = true ->
  exists (a : list (string * value)) (t : value),
    action = PyDict a /\ dict_get a "type" = Some t.
Proof.
  unfold Design.has_type, dict_has.
  destruct action as [| | | | | | a]; try discriminate.
  destruct (dict_get a "type") as [t |] eqn:Ht; [| discriminate].
  intros _. exists a, t. auto.
Qed.

Lemma sanitize_actions_typed_prefix (good : list value) :
  forall (rest sanitized : list value),
    forallb Design.has_type good = true ->
    sanitize_actions (good ++ rest) sanitized
    = sanitize_actions rest (sanitized ++ Design.sanitize good).
Proof.
  induction good as [| action good IH]; intros rest sanitized Hgood.
  - cbn [app]. unfold Design.sanitize. cbn [List.filter map].
    rewrite app_nil_r. reflexivity.
  - cbn [forallb] in Hgood. apply andb_true_iff in Hgood as [Ha Hgood].
    destruct (has_type_inv action Ha) as (a & t & -> & Ht).
    cbn [app sanitize_actions]. rewrite (sanitize_action_extracts a t Ht).
    cbn [rbind]. unfold Design.sanitize. cbn [List.filter].
    destruct (Design.is_no_action (PyDict a)); cbn [negb map].
    + apply (IH rest sanitized Hgood).
    + rewrite (IH rest _ Hgood). unfold Design.sanitize.
      rewrite <- app_assoc. reflexivity.
Qed.

(** X10. [sanitize_action_plan] outside validated plans.  It needs the plan
    to be a mapping ([AttributeError] otherwise); a plan without an
    [actions] key gives the empty list; a list of entries that are all
    mappings with a [type] key, valid or not, gives the entries that are
    not [no_action], extracted in order (an unknown type with empty
    details, a missing field as null); and at the first entry that is
    not such a mapping it raises, [AttributeError] for an entry that is
    not a mapping and [KeyError] for a mapping without [type]. *)
Theorem sanitize_action_plan_edges :
  forall action_plan : value,
    ((forall p : list (string * value), action_plan <> PyDict p) ->
     sanitize_action_plan action_plan = Raise AttributeError)
    /\ (forall p : list (string * value),
          action_plan = PyDict p ->
          (dict_get p "actions" = None -> sanitize_action_plan action_plan = Ok [])
          /\ (forall actions : list value,
                dict_get p "actions" = Some (PyList actions) ->
                (forallb Design.has_type actions = true ->
                 sanitize_action_plan action_plan = Ok (Design.sanitize actions))
                /\ (forall (good : list value) (bad : value) (rest : list value),
                      actions = good ++ bad :: rest ->
                      forallb Design.has_type good = true ->
                      ((forall a : list (string * value), bad <> PyDict a) ->
                       sanitize_action_plan action_plan = Raise AttributeError)
                      /\ (forall a : list (string * value),
                            bad = PyDict a -> dict_get a "type" = None ->
                            sanitize_action_plan action_plan = Raise KeyError)))).
Proof.
  intros action_plan. split.
  { intros Hnot. destruct action_plan as [| | | | | | p]; try reflexivity.
    destruct (Hnot p eq_refl). }
  intros p ->. split.
  { intros Hnone. unfold sanitize_action_plan. cbn [get rbind].
    unfold dict_get_or. rewrite Hnone. reflexivity. }
  intros actions Hactions.
  assert (Hrun : sanitize_action_plan (PyDict p) = sanitize_actions actions []).
  { unfold sanitize_action_plan. cbn [get rbind]. unfold dict_get_or.
    rewrite Hactions. reflexivity. }
  rewrite Hrun. split.
  { intros Htyped.
    rewrite <- (app_nil_r actions) at 1.
    rewrite (sanitize_actions_typed_prefix actions [] [] Htyped).
    reflexivity. }
  intros good bad rest -> Hgood.
  rewrite (sanitize_actions_typed_prefix good (bad :: rest) [] Hgood).
  cbn [sanitize_actions]. split.
  - intros Hnot. destruct bad as [| | | | | | a]; try reflexivity.
    destruct (Hnot a eq_refl).
  - intros a -> Ht. unfold sanitize_action. cbn [get getitem rbind].
    unfold dict_get_or. rewrite Ht. reflexivity.
Qed.

(** An entry of an unknown type is extracted with empty details; an entry
    without a type makes the call raise. *)
Lemma sanitize_action_plan_edges_examples :
  sanitize_action_plan
    (PyDict [("actions", PyList [PyDict [("type", PyStr "restart");
                                         ("deployment_id", PyStr "12345")]])])
  = Ok [PyDict [("type", PyStr "restart"); ("deployment_id", PyStr "12345");
                ("details", PyDict [])]]
  /\ sanitize_action_plan
       (PyDict [("actions", PyList [PyDict [("deployment_id", PyStr "12345")]])])
     = Raise KeyError.
Proof.
  split.
  - destruct (proj2 (sanitize_action_plan_edges
                       (PyDict [("actions",
                                 PyList [PyDict [("type", PyStr "restart");
                                                 ("deployment_id", PyStr "12345")]])]))
                _ eq_refl) as [_ H].
    exact (proj1 (H _ eq_refl) eq_refl).
  - destruct (proj2 (sanitize_action_plan_edges
                       (PyDict [("actions",
                                 PyList [PyDict [("deployment_id", PyStr "12345")]])]))
                _ eq_refl) as [_ H].
    destruct (proj2 (H _ eq_refl) [] (PyDict [("deployment_id", PyStr "12345")]) []
                eq_refl eq_refl) as [_ Hkey].
    exact (Hkey _ eq_refl eq_refl).
Defined.

(** A well-formed entry that is not [no_action] is extracted as an entry
    the executor knows. *)
Lemma extract_executable (action : value) :
  Design.well_formed_action action = true ->
  Design.is_no_action action = false ->
  Design.executable_entry (Design.extract action) = true.
Proof.
  unfold Design.well_formed_action.
  destruct action as [| | | | | | a]; try discriminate.
  destruct (dict_get a "type") as [t |] eqn:Ht; [| discriminate].
  destruct t as [| | | | t | |]; try discriminate.
  assert (Hor : dict_get_or a "type" PyNone = PyStr t)
    by (unfold dict_get_or; rewrite Ht; reflexivity).
  unfold Design.is_no_action, Design.extract, Design.field, Design.executable_entry.
  rewrite !Hor. cbn [eq_str].
  destruct (String.eqb t "scale") eqn:Hs.
  - intros _ _. reflexivity.
  - destruct (String.eqb t "redeploy") eqn:Hr.
    + intros _ _. reflexivity.
    + intros Hna Hnot. congruence.
Qed.

(** X11. What reaches the executor: for a plan that validation accepts,
    sanitization returns a list, no longer than the plan's, in which every
    entry is a scale with [new_count] and [reason] in its details or a
    redeploy with [reason]; no [no_action] and no other type gets through,
    so the loop's unknown-type branch is never taken for such a plan. *)
Theorem sanitized_entries_are_executable :
  forall (repr : string) (action_plan : value),
    validate_action_plan repr action_plan = Ok (true, None) ->
    exists (p : list (string * value)) (actions entries : list value),
      action_plan = PyDict p
      /\ dict_get p "actions" = Some (PyList actions)
      /\ sanitize_action_plan action_plan = Ok entries
      /\ (length entries <= length actions)%nat
      /\ Forall (fun entry => Design.executable_entry entry = true) entries.
Proof.
  intros repr action_plan Hvalid.
  apply validate_action_plan_accepts in Hvalid.
  destruct (sanitize_well_formed_plan action_plan Hvalid)
    as (p & actions & Hp & Hactions & Hwf & Hsan).
  exists p, actions, (Design.sanitize actions).
  split; [exact Hp |]. split; [exact Hactions |]. split; [exact Hsan |].
  unfold Design.sanitize. split.
  - rewrite length_map. apply List.filter_length_le.
  - apply Forall_forall. intros entry Hin.
    apply list_elem_of_In, in_map_iff in Hin as (action & <- & Hin).
    apply filter_In in Hin as [Hin Hnot].
    apply extract_executable.
    + rewrite forallb_forall in Hwf. apply Hwf, Hin.
    + apply negb_true_iff, Hnot.
Qed.

(** The mock recommender's plan, one [no_action], leaves nothing to run. *)
Lemma sanitized_entries_of_mock_plan :
  sanitize_action_plan
    (PyDict [("reasoning", PyStr "Mock client - no action taken");
             ("actions", PyList [PyDict [("type", PyStr "no_action")]])])
  = Ok [].
Proof.
  destruct (sanitized_entries_are_executable Fixtures.types_repr
              (PyDict [("reasoning", PyStr "Mock client - no action taken");
                       ("actions", PyList [PyDict [("type", PyStr "no_action")]])])
              eq_refl)
    as (p & actions & entries & Hp & Hactions & Hsan & Hlen & _).
  injection Hp as <-. injection Hactions as <-.
  rewrite Hsan. revert Hsan. vm_compute. intros H. injection H as <-. reflexivity.
Defined.

(** * The iteration, from the recommender's answer on *)

Lemma sanitize_only_no_action (actions : list value) :
  forallb Design.is_no_action actions = true -> Design.sanitize actions = [].
Proof.
  unfold Design.sanitize. induction actions as [| action rest IH]; [reflexivity |].
  cbn [forallb List.filter]. intros H. apply andb_true_iff in H as [Ha Hrest].
  rewrite Ha. cbn [negb]. apply IH, Hrest.
Qed.

(** X12. What an iteration does with the recommender's answer.  A falsy
    answer (none, or an empty mapping) ends the iteration with the store
    untouched and nothing validated; a truthy answer that validation
    rejects leaves exactly one new record, of type [validation_failed]
    and status [failed], with no deployment id, the error text and the
    plan in its details, and no cooldown; a valid plan whose entries are
    all [no_action] leaves the store and the clock untouched. *)
Theorem loop_iteration_from_plan :
  forall (settings : Settings) (get_deployment : option string -> result value)
         (str_of_exn : exn -> string) (repr : string) (action_plan : value)
         (w : World),
    let iteration :=
      AutopilotAgent._execute_loop_iteration_from_plan settings get_deployment
        str_of_exn repr action_plan in
    (truthy action_plan = false ->
     exists m, iteration = Some m /\ m w = (Ok tt, w))
    /\ (forall msg : string,
          truthy action_plan = true ->
          validate_action_plan repr action_plan = Ok (false, Some msg) ->
          exists m,
            iteration = Some m
            /\ fst (m w) = Ok tt
            /\ action_ledger (conn (snd (m w)))
               = action_ledger (conn w)
                 ++ [ {| a_id := action_ledger_seq (conn w) + 1;
                         a_timestamp := clock w (reads w);
                         a_action_type := "validation_failed";
                         a_deployment_id := None;
                         a_details := Some (PyDict [("error", PyStr msg);
                                                    ("plan", action_plan)]);
                         a_status := "failed";
                         a_error := None |} ]
            /\ cooldowns (conn (snd (m w))) = cooldowns (conn w)
            /\ deployment_state (conn (snd (m w))) = deployment_state (conn w))
    /\ (forall (p : list (string * value)) (actions : list value),
          action_plan = PyDict p ->
          dict_get p "actions" = Some (PyList actions) ->
          forallb Design.well_formed_action actions = true ->
          forallb Design.is_no_action actions = true ->
          exists m, iteration = Some m /\ m w = (Ok tt, w)).
Proof.
  intros settings get_deployment str_of_exn repr action_plan w iteration.
  subst iteration. unfold AutopilotAgent._execute_loop_iteration_from_plan.
  split; [| split].
  - intros Hfalsy. rewrite Hfalsy. cbn [negb]. eexists. split; reflexivity.
  - intros msg Htruthy Hinvalid. rewrite Htruthy, Hinvalid. cbn [negb].
    eexists. split; [reflexivity |].
    unfold bind. rewrite log_action_run. cbn [fst snd ret conn insert_action
      action_ledger cooldowns deployment_state truthy].
    repeat split.
  - intros p actions -> Hactions Hwf Hnone.
    assert (Hplan : Design.well_formed_plan (PyDict p) = true).
    { unfold Design.well_formed_plan. rewrite Hactions. exact Hwf. }
    destruct (sanitize_well_formed_plan (PyDict p) Hplan)
      as (p' & actions' & Hp & Hactions' & _ & Hsan).
    injection Hp as <-. rewrite Hactions in Hactions'. injection Hactions' as <-.
    apply (validate_action_plan_accepts repr) in Hplan.
    assert (Htruthy : truthy (PyDict p) = true).
    { destruct p; [discriminate | reflexivity]. }
    rewrite Htruthy, Hplan, Hsan, (sanitize_only_no_action actions Hnone).
    cbn [negb AutopilotAgent.typed_actions AutopilotAgent.execute_actions].
    eexists. split; reflexivity.
Qed.

(** The malformed plan [{"actions": [{"type": "scale"}]}] is recorded as a
    validation failure and nothing is executed. *)
Lemma loop_iteration_from_malformed_plan :
  let plan := PyDict [("actions", PyList [PyDict [("type", PyStr "scale")]])] in
  exists m,
    AutopilotAgent._execute_loop_iteration_from_plan default_settings
      Fixtures.mock_get_deployment Fixtures.no_message Fixtures.types_repr plan
    = Some m
    /\ map (fun r => (a_action_type r, a_status r, a_details r))
           (action_ledger (conn (snd (m Fixtures.fresh_world))))
       = [("validation_failed", "failed",
           Some (PyDict [("error", PyStr "Scale action 0 missing 'deployment_id'");
                         ("plan", plan)]))].
Proof.
  intros plan.
  destruct (proj1 (proj2 (loop_iteration_from_plan default_settings
                            Fixtures.mock_get_deployment Fixtures.no_message
                            Fixtures.types_repr plan Fixtures.fresh_world))
              "Scale action 0 missing 'deployment_id'" eq_refl eq_refl)
    as (m & Hm & _ & Hledger & _).
  exists m. split; [exact Hm |]. rewrite Hledger. reflexivity.
Defined.

(** * The advertised policy *)

(** X13. The policy summary handed to the recommender states the limits
    the guardrail enforces: its replica bounds are those which
    [_validate_scale_action] compares a count with (an integer count is
    allowed exactly between them, a float count exactly when it is
    neither below the lower nor above the upper one), its two ceilings
    are those below which [_check_rate_limits] passes, and its two
    durations are those [apply_cooldown] uses for scale and redeploy. *)
Theorem get_policy_summary_is_enforced :
  forall settings : Settings,
    let summary := get_policy_summary settings in
    exists (lo hi per_hour per_day scale_seconds redeploy_seconds : Z)
           (flo fhi : float),
      Design.at_path summary ["constraints"; "min_replicas"] = PyInt lo
      /\ Design.at_path summary ["constraints"; "max_replicas"] = PyInt hi
      /\ Design.at_path summary ["rate_limits"; "max_actions_per_hour"] = PyInt per_hour
      /\ Design.at_path summary ["rate_limits"; "max_actions_per_day"] = PyInt per_day
      /\ Design.at_path summary ["cooldowns"; "scale_cooldown_seconds"]
         = PyInt scale_seconds
      /\ Design.at_path summary ["cooldowns"; "redeploy_cooldown_seconds"]
         = PyInt redeploy_seconds
      /\ float_of_int lo = Ok flo
      /\ float_of_int hi = Ok fhi
      /\ (forall details : value,
            _validate_scale_action details = Ok (true, None)
            <-> (exists n : Z, Design.new_count_of details = Some n /\ lo <= n <= hi)
                \/ (exists (x : float) (shown : string),
                      Design.float_count_of details = Some (x, shown)
                      /\ (x <? flo)%float = false /\ (fhi <? x)%float = false))
      /\ (forall (action_type : string) (w : World),
            fst (_check_rate_limits settings action_type w) = Ok true
            <-> Design.count_hour action_type w < per_hour
                /\ Design.count_day action_type w < per_day)
      /\ cooldown_seconds settings "scale" = scale_seconds
      /\ cooldown_seconds settings "redeploy" = redeploy_seconds.
Proof.
  intros settings summary.
  exists 0, 10, (max_actions_per_hour settings), (max_actions_per_day settings),
    (scale_cooldown_seconds settings), (redeploy_cooldown_seconds settings),
    0%float, 10%float.
  do 8 (split; [reflexivity |]).
  split; [apply validate_scale_action_allows |].
  split; [| split; reflexivity].
  intros action_type w. rewrite check_rate_limits_run.
  destruct (Z.leb_spec (max_actions_per_hour settings)
                       (Design.count_hour action_type w)).
  { split; [discriminate | lia]. }
  destruct (Z.leb_spec (max_actions_per_day settings)
                       (Design.count_day action_type w)).
  { split; [discriminate | lia]. }
  split; [lia | reflexivity].
Qed.

(** * Reading the store back *)

(** ** Tracked deployments *)

Lemma find_upsert_same (row : DeploymentRow) (rows : list DeploymentRow) :
  List.find (fun r => String.eqb (d_deployment_id r) (d_deployment_id row))
            (upsert row rows)
  = Some row.
Proof.
  induction rows as [| r rows IH]; cbn [upsert List.find].
  - rewrite String.eqb_refl. reflexivity.
  - destruct (String.eqb (d_deployment_id r) (d_deployment_id row)) eqn:Hr;
      cbn [List.find].
    + rewrite String.eqb_refl. reflexivity.
    + rewrite Hr. exact IH.
Qed.

Lemma find_upsert_other (row : DeploymentRow) (rows : list DeploymentRow)
    (other : string) :
  other <> d_deployment_id row ->
  List.find (fun r => String.eqb (d_deployment_id r) other) (upsert row rows)
  = List.find (fun r => String.eqb (d_deployment_id r) other) rows.
Proof.
  intros Hother.
  assert (Hrow : String.eqb (d_deployment_id row) other = false).
  { apply String.eqb_neq. congruence. }
  induction rows as [| r rows IH]; cbn [upsert List.find].
  - rewrite Hrow. reflexivity.
  - destruct (String.eqb_spec (d_deployment_id r) (d_deployment_id row)) as [Heq | Hne];
      cbn [List.find].
    + rewrite Hrow, Heq, Hrow. reflexivity.
    + rewrite IH. reflexivity.
Qed.

Lemma upsert_ids (row : DeploymentRow) (rows : list DeploymentRow) (id : string) :
  In id (map d_deployment_id (upsert row rows)) ->
  id = d_deployment_id row \/ In id (map d_deployment_id rows).
Proof.
  induction rows as [| r rows IH]; cbn [upsert map In].
  - intros [<- | []]. left. reflexivity.
  - destruct (String.eqb_spec (d_deployment_id r) (d_deployment_id row)) as [Heq | Hne];
      cbn [map In].
    + intros [<- | Hin]; [left; reflexivity | right; right; exact Hin].
    + intros [<- | Hin]; [right; left; reflexivity |].
      destruct (IH Hin) as [-> | Hin']; [left; reflexivity | right; right; exact Hin'].
Qed.

Lemma upsert_keeps_key (row : DeploymentRow) (rows : list DeploymentRow) :
  NoDup (map d_deployment_id rows) ->
  NoDup (map d_deployment_id (upsert row rows)).
Proof.
  induction rows as [| r rows IH]; cbn [upsert map]; intros Hnodup.
  - apply NoDup_singleton.
  - apply NoDup_cons in Hnodup as [Hfresh Hnodup].
    destruct (String.eqb_spec (d_deployment_id r) (d_deployment_id row)) as [Heq | Hne];
      cbn [map].
    + apply NoDup_cons. rewrite <- Heq. split; assumption.
    + apply NoDup_cons. split; [| apply IH, Hnodup].
      intros Hin. apply list_elem_of_In, upsert_ids in Hin as [Heq | Hin].
      * contradiction.
      * apply Hfresh, list_elem_of_In, Hin.
Qed.

Lemma upsert_length (row : DeploymentRow) (rows : list DeploymentRow) :
  length (upsert row rows)
  = match List.find (fun r => String.eqb (d_deployment_id r) (d_deployment_id row))
                    rows with
    | Some _ => length rows
    | None => S (length rows)
    end.
Proof.
  induction rows as [| r rows IH]; cbn [upsert List.find]; [reflexivity |].
  destruct (String.eqb (d_deployment_id r) (d_deployment_id row)); [reflexivity |].
  cbn [length]. rewrite IH.
  destruct (List.find _ rows); reflexivity.
Qed.

(** X14. [update_deployment_state] is an upsert keyed by the deployment id:
    afterwards [get_deployment_state] of that id returns the values just
    written, with [last_checked] and [updated_at] both at the instant
    read and empty metrics stored as null; every other deployment reads
    as before; the number of tracked deployments grows by one exactly
    when the id was not tracked yet; ids that were pairwise distinct stay
    so; and the ledger and the cooldowns are untouched. *)
Theorem update_deployment_state_upserts :
  forall (deployment_id name status : string) (replicas : Z) (metrics : value)
         (w : World),
    let run := update_deployment_state deployment_id name status replicas metrics w in
    let row :=
      {| d_deployment_id := deployment_id; d_name := name; d_status := status;
         d_replicas := replicas; d_last_checked := clock w (reads w);
         d_metrics := if truthy metrics then Some metrics else None;
         d_updated_at := clock w (reads w) |} in
    fst run = Ok tt
    /\ fst (get_deployment_state deployment_id (snd run)) = Ok (Some row)
    /\ (forall other : string,
          other <> deployment_id ->
          fst (get_deployment_state other (snd run))
          = fst (get_deployment_state other w))
    /\ length (deployment_state (conn (snd run)))
       = match select_deployment deployment_id (conn w) with
         | Some _ => length (deployment_state (conn w))
         | None => S (length (deployment_state (conn w)))
         end
    /\ (Design.deployments_ok (conn w) -> Design.deployments_ok (conn (snd run)))
    /\ action_ledger (conn (snd run)) = action_ledger (conn w)
    /\ cooldowns (conn (snd run)) = cooldowns (conn w).
Proof.
  intros deployment_id name status replicas metrics w run row.
  subst run. unfold update_deployment_state, bind, utcnow, execute.
  cbn [fst snd tick conn clock reads upsert_deployment deployment_state
    action_ledger cooldowns].
  fold row. change (deployment_row deployment_id name status replicas metrics
                      (clock w (reads w))) with row.
  split; [reflexivity |].
  unfold get_deployment_state, query, select_deployment.
  cbn [fst conn deployment_state].
  split; [f_equal; apply (find_upsert_same row) |].
  split; [intros other Hother; f_equal; apply (find_upsert_other row); exact Hother |].
  split; [apply (upsert_length row) |].
  split; [apply upsert_keeps_key |].
  split; reflexivity.
Qed.

(** ** Listing by type *)

(** X15. Listing and counting agree: for a non-empty action type and a
    given start instant, every list [get_actions_by_type] may return has
    as many rows as [count_actions_since] counts for that type and
    instant, all of that type and not older than the instant, newest
    first.  (For the empty type string the count ignores the type and the
    two differ.) *)
Theorem get_actions_by_type_matches_count :
  forall (action_type : string) (since : Z) (c : Conn) (rows : list ActionRow),
    action_type <> "" ->
    get_actions_by_type action_type (Some since) c rows ->
    Z.of_nat (length rows) = select_count_actions since (Some action_type) c
    /\ Forall (fun r => a_action_type r = action_type /\ since <= a_timestamp r) rows
    /\ newest_first rows.
Proof.
  intros action_type since c rows Htype [Hperm Hsorted].
  assert (Hsame : forall r, counted since (Some action_type) r
                            = of_type_since action_type (Some since) r).
  { intros r. unfold counted, of_type_since.
    destruct (String.eqb_spec action_type ""); [contradiction |].
    cbn [negb]. apply andb_comm. }
  split; [| split; [| exact Hsorted]].
  - unfold select_count_actions. rewrite (Permutation_length Hperm).
    rewrite (List.filter_ext _ _ Hsame). reflexivity.
  - apply Forall_forall. intros r Hin.
    apply list_elem_of_In in Hin.
    apply (Permutation_in _ Hperm), filter_In in Hin as [_ Hr].
    unfold of_type_since in Hr. apply andb_true_iff in Hr as [Ht Hs].
    apply String.eqb_eq in Ht. apply Z.leb_le in Hs. auto.
Qed.

(** Two of the three scale records of the busy hour are from the last
    twenty minutes. *)
Lemma get_actions_by_type_matches_count_busy_hour :
  select_count_actions (Fixtures.t0 - 1200 * usec) (Some "scale")
    (conn Fixtures.busy_hour)
  = 2.
Proof.
  destruct (get_actions_by_type_matches_count "scale" (Fixtures.t0 - 1200 * usec)
              (conn Fixtures.busy_hour)
              [Fixtures.past_scale 3 (600 * usec); Fixtures.past_scale 2 (1200 * usec)])
    as (Hcount & _).
  - discriminate.
  - split.
    + vm_compute. apply perm_swap.
    + repeat constructor. apply Z.leb_le. reflexivity.
  - rewrite <- Hcount. reflexivity.
Defined.

(** ** The most recent action *)

Lemma newest_first_head (h : ActionRow) (tl : list ActionRow) :
  newest_first (h :: tl) -> Forall (fun r => a_timestamp r <= a_timestamp h) tl.
Proof.
  intros Hsorted. apply StronglySorted_inv in Hsorted as [_ Hhead]. exact Hhead.
Qed.

(** X16. Round trip through the ledger: when an action is logged at an
    instant later than every stored record and then marked [completed],
    the only list [get_recent_actions(1)] can return is that one record,
    with the id [log_action] returned, the logged type, deployment id and
    details, the status [completed] and no error. *)
Theorem get_recent_actions_top_is_latest :
  forall (action_type : string) (deployment_id : option string) (details : value)
         (w : World) (rows : list ActionRow),
    (forall r : ActionRow,
        In r (action_ledger (conn w)) -> a_timestamp r < clock w (reads w)) ->
    let logged := log_action action_type deployment_id details "pending" None w in
    let action_id := action_ledger_seq (conn w) + 1 in
    let w2 := snd (update_action_status action_id "completed" None (snd logged)) in
    get_recent_actions 1 (conn w2) rows ->
    fst logged = Ok action_id
    /\ rows = [ {| a_id := action_id;
                   a_timestamp := clock w (reads w);
                   a_action_type := action_type;
                   a_deployment_id := deployment_id;
                   a_details := if truthy details then Some details else None;
                   a_status := "completed";
                   a_error := None |} ].
Proof.
  intros action_type deployment_id details w rows Hlatest logged action_id w2.
  subst logged w2. rewrite log_action_run. cbn [fst snd].
  unfold update_action_status, execute. cbn [snd conn].
  intros (ordered & Hperm & Hsorted & ->).
  split; [reflexivity |].
  unfold update_ledger, insert_action in Hperm. cbn [action_ledger] in Hperm.
  rewrite map_app in Hperm. cbn [map] in Hperm.
  unfold set_status at 2 in Hperm. cbn [a_id] in Hperm.
  fold action_id in Hperm. rewrite Z.eqb_refl in Hperm.
  cbn [a_timestamp a_action_type a_deployment_id a_details] in Hperm.
  set (top := {| a_id := action_id; a_timestamp := clock w (reads w);
                 a_action_type := action_type; a_deployment_id := deployment_id;
                 a_details := if truthy details then Some details else None;
                 a_status := "completed"; a_error := None |}) in *.
  set (older := map (set_status action_id "completed" None) (action_ledger (conn w)))
    in *.
  assert (Holder : forall r, In r older -> a_timestamp r < a_timestamp top).
  { intros r Hin. subst older. apply in_map_iff in Hin as (r0 & <- & Hin0).
    destruct (set_status_same_record action_id "completed" None r0)
      as (_ & Hts & _).
    rewrite Hts. apply Hlatest, Hin0. }
  assert (Htop : In top ordered).
  { apply (Permutation_in _ (Permutation_sym Hperm)), in_or_app.
    right. left. reflexivity. }
  destruct ordered as [| h tl]; [destruct Htop |].
  change (limit_rows 1 (h :: tl)) with [h]. f_equal.
  destruct Htop as [Hh | Htl]; [exact Hh |].
  pose proof (newest_first_head h tl Hsorted) as Hhead.
  rewrite Forall_forall in Hhead.
  apply list_elem_of_In, Hhead in Htl.
  assert (Hin : In h (older ++ [top])).
  { apply (Permutation_in _ Hperm). left. reflexivity. }
  apply in_app_or in Hin as [Hin | [Hin | []]]; [| exact (eq_sym Hin)].
  apply Holder in Hin. lia.
Qed.

(** A scale logged on top of the busy hour and completed. *)
Lemma get_recent_actions_top_after_busy_hour :
  exists row : ActionRow,
    a_id row = 4 /\ a_status row = "completed"
    /\ get_recent_actions 1
         (update_ledger 4 "completed" None
            (insert_action Fixtures.t0 "scale" (Some "12345")
               (Fixtures.scale_details 2) "pending" None (conn Fixtures.busy_hour)))
         [row].
Proof.
  set (row := {| a_id := 4; a_timestamp := Fixtures.t0; a_action_type := "scale";
                 a_deployment_id := Some "12345";
                 a_details := Some (Fixtures.scale_details 2);
                 a_status := "completed"; a_error := None |}).
  assert (Hget : get_recent_actions 1
                   (update_ledger 4 "completed" None
                      (insert_action Fixtures.t0 "scale" (Some "12345")
                         (Fixtures.scale_details 2) "pending" None
                         (conn Fixtures.busy_hour)))
                   [row]).
  { exists [row; Fixtures.past_scale 3 (600 * usec);
            Fixtures.past_scale 2 (1200 * usec); Fixtures.past_scale 1 (1800 * usec)].
    split; [| split; [| reflexivity]].
    - vm_compute.
      apply Permutation_sym.
      apply (Permutation_trans (Permutation_rev _)). vm_compute.
      apply Permutation_refl.
    - repeat constructor; apply Z.leb_le; reflexivity. }
  exists row. split; [reflexivity |]. split; [reflexivity |].
  destruct (get_recent_actions_top_is_latest "scale" (Some "12345")
              (Fixtures.scale_details 2) Fixtures.busy_hour [row])
    as [_ Hrows].
  - intros r Hin. vm_compute in Hin.
    destruct Hin as [<- | [<- | [<- | []]]]; apply Z.ltb_lt; reflexivity.
  - exact Hget.
  - exact Hget.
Defined.

(** ** Statistics *)





Lemma filter_length_implied {A : Type} (f g : A -> bool) (l : list A) :
  (forall x, f x = true -> g x = true) ->
  (length (List.filter f l) <= length (List.filter g l))%nat.
Proof.
  intros Himp. induction l as [| x l IH]; cbn [List.filter]; [lia |].
  destruct (f x) eqn:Hf.
  - rewrite (Himp x Hf). cbn [length]. lia.
  - destruct (g x); cbn [length]; lia.
Qed.


(** * Execution failures and expiry *)

Section Execution.
Variable settings : Settings.
Variable get_deployment : option string -> result value.
Variable str_of_exn : exn -> string.

(** The status and error the guarded execution step leads to, for details
    that are a mapping. *)
Lemma execution_outcome_exact (action_type : string)
    (deployment_id : option string) (f : list (string * value)) (w : World) :
  try_except
    (if String.eqb action_type "scale" then
       bind (AutopilotAgent._execute_scale get_deployment deployment_id (PyDict f))
            (fun success => ret (success, None))
     else if String.eqb action_type "redeploy" then
       bind (AutopilotAgent._execute_redeploy get_deployment deployment_id (PyDict f))
            (fun success => ret (success, None))
     else ret (false, Some ("Unknown action type: " +:+ action_type)))
    (fun e => ret (false, Some (str_of_exn e))) w
  = (Ok (if String.eqb action_type "scale" || String.eqb action_type "redeploy"
         then match get_deployment deployment_id with
              | Ok deployment => (truthy deployment, None)
              | Raise e => (false, Some (str_of_exn e))
              end
         else (false, Some ("Unknown action type: " +:+ action_type))),
     w).
Proof.
  unfold try_except, AutopilotAgent._execute_scale, AutopilotAgent._execute_redeploy,
    bind, lift, ret. cbn [get].
  destruct (String.eqb action_type "scale"); cbn [orb].
  - destruct (get_deployment deployment_id) as [deployment | e]; [| reflexivity].
    destruct (truthy deployment); reflexivity.
  - destruct (String.eqb action_type "redeploy"); [| reflexivity].
    destruct (get_deployment deployment_id) as [deployment | e]; [| reflexivity].
    destruct (truthy deployment); reflexivity.
Qed.

End Execution.

(** X18. How an action that the guardrail allows ends, when its details
    are a mapping and the stored ids are at or below the counter.  A
    scale or redeploy whose deployment the console returns ends
    [completed] and one cooldown row is written; when the console returns
    nothing for it the record ends [failed] with no error text; when the
    console raises, [failed] with the text of the exception; an action of
    any other type ends [failed] with [Unknown action type: <type>].  A
    failed action writes no cooldown, and in every case the call returns
    normally. *)
Theorem execute_action_after_approval :
  forall (settings : Settings) (get_deployment : option string -> result value)
         (str_of_exn : exn -> string) (action : AutopilotAgent.Action)
         (f : list (string * value)) (w w2 : World),
    Forall (fun r => a_id r <= action_ledger_seq (conn w)) (action_ledger (conn w)) ->
    AutopilotAgent.act_details action = PyDict f ->
    let t := AutopilotAgent.act_type action in
    let d := AutopilotAgent.act_deployment_id action in
    validate_action settings t d (PyDict f)
      (snd (log_action t d (PyDict f) "pending" None w))
    = (Ok (true, None), w2) ->
    let run := AutopilotAgent._execute_action settings get_deployment str_of_exn
                 action w in
    let outcome : bool * option string :=
      if String.eqb t "scale" || String.eqb t "redeploy"
      then match get_deployment d with
           | Ok deployment => (truthy deployment, None)
           | Raise e => (false, Some (str_of_exn e))
           end
      else (false, Some ("Unknown action type: " +:+ t)) in
    fst run = Ok tt
    /\ action_ledger (conn (snd run))
       = action_ledger (conn w)
         ++ [ {| a_id := action_ledger_seq (conn w) + 1;
                 a_timestamp := clock w (reads w);
                 a_action_type := t;
                 a_deployment_id := d;
                 a_details := if truthy (PyDict f) then Some (PyDict f) else None;
                 a_status := if fst outcome then "completed" else "failed";
                 a_error := snd outcome |} ]
    /\ cooldowns (conn (snd run))
       = (if fst outcome
          then cooldowns (conn w)
               ++ [ {| c_id := cooldowns_seq (conn w) + 1;
                       c_action_type := t;
                       c_deployment_id := d;
                       c_expires_at := clock w (reads w + 4)%nat
                                       + cooldown_seconds settings t * usec |} ]
          else cooldowns (conn w)).
Proof.
  intros settings get_deployment str_of_exn action f w w2 Hids Hdetails t d Hv
         run outcome.
  subst run.
  destruct (AutopilotAgent._execute_action settings get_deployment str_of_exn
              action w) as [r w'] eqn:Hrun.
  cbn [fst snd]. revert Hrun.
  unfold AutopilotAgent._execute_action. cbn zeta.
  fold t d. rewrite Hdetails.
  unfold bind at 1. rewrite log_action_run.
  rewrite log_action_run in Hv. cbn [snd] in Hv.
  set (w1 := {| conn := _; clock := clock w; reads := S (reads w) |}) in *.
  pose proof (validate_action_world settings t d (PyDict f) w1) as Hworld.
  cbn zeta in Hworld. rewrite Hv in Hworld. cbn [fst snd] in Hworld.
  destruct Hworld as (Hconn & Hclock & _ & _ & Hallow).
  destruct (Hallow None eq_refl) as [_ Hreads3].
  unfold bind at 1. rewrite Hv. cbn [fst snd negb].
  unfold bind at 1.
  rewrite (execution_outcome_exact get_deployment str_of_exn t d f w2).
  fold outcome. cbn [fst snd].
  unfold bind at 1. unfold update_action_status, execute.
  assert (Hupdate : forall status error,
             map (set_status (action_ledger_seq (conn w) + 1) status error)
                 (action_ledger (conn w1))
             = action_ledger (conn w)
               ++ [ {| a_id := action_ledger_seq (conn w) + 1;
                       a_timestamp := clock w (reads w); a_action_type := t;
                       a_deployment_id := d;
                       a_details := if truthy (PyDict f) then Some (PyDict f) else None;
                       a_status := status; a_error := error |} ]).
  { intros status error. subst w1. cbn [conn insert_action action_ledger].
    rewrite (update_ledger_new_row _ _ _ status error Hids); [| reflexivity].
    unfold set_status. cbn [a_id]. rewrite Z.eqb_refl. reflexivity. }
  destruct (fst outcome).
  - unfold apply_cooldown, set_cooldown, bind, utcnow, execute.
    cbn [tick conn clock reads].
    intros H. injection H as <- <-.
    cbn [conn clock reads update_ledger insert_cooldown action_ledger cooldowns
      cooldowns_seq].
    rewrite Hconn, Hupdate, Hclock, Hreads3.
    split; [reflexivity |]. split; [reflexivity |].
    subst w1. cbn [conn clock reads insert_action cooldowns cooldowns_seq].
    replace (S (reads w) + 3)%nat with (reads w + 4)%nat by lia.
    reflexivity.
  - unfold ret. intros H. injection H as <- <-.
    cbn [conn update_ledger action_ledger cooldowns].
    rewrite Hconn, Hupdate.
    split; [reflexivity |]. split; reflexivity.
Qed.

(** A scale of a deployment the console does not return ends failed; a
    console that raises leaves its message in the record. *)
Lemma execute_action_after_approval_console_down :
  let run :=
    AutopilotAgent._execute_action default_settings
      (fun _ => Raise (External "connection refused"))
      (fun e => match e with External msg => msg | _ => "" end)
      (Fixtures.scale_to "12345" 2) Fixtures.fresh_world in
  map (fun r => (a_status r, a_error r)) (action_ledger (conn (snd run)))
  = [("failed", Some "connection refused")]
  /\ cooldowns (conn (snd run)) = [].
Proof.
  intros run.
  destruct (execute_action_after_approval default_settings
              (fun _ => Raise (External "connection refused"))
              (fun e => match e with External msg => msg | _ => "" end)
              (Fixtures.scale_to "12345" 2)
              [("new_count", PyInt 2); ("reason", PyStr "LLM recommendation")]
              Fixtures.fresh_world
              {| conn := insert_action Fixtures.t0 "scale" (Some "12345")
                           (Fixtures.scale_details 2) "pending" None empty_conn;
                 clock := Fixtures.steady_clock; reads := 4 |})
    as (_ & Hledger & Hcool).
  - constructor.
  - reflexivity.
  - reflexivity.
  - subst run. rewrite Hledger, Hcool. split; reflexivity.
Defined.

(** X19. Cooldowns only run out: on an unchanged table, a pair that is not
    in cooldown at one instant is not in cooldown at any later instant,
    and the number of rows in force never grows with time. *)
Theorem check_cooldown_only_expires :
  forall (now later : Z) (action_type : string) (deployment_id : option string)
         (c : Conn),
    now <= later ->
    select_count_cooldowns later action_type deployment_id c
    <= select_count_cooldowns now action_type deployment_id c
    /\ ((0 <? select_count_cooldowns now action_type deployment_id c) = false ->
        (0 <? select_count_cooldowns later action_type deployment_id c) = false).
Proof.
  intros now later action_type deployment_id c Hlater.
  assert (Hle : select_count_cooldowns later action_type deployment_id c
                <= select_count_cooldowns now action_type deployment_id c).
  { unfold select_count_cooldowns. apply inj_le, filter_length_implied.
    intros r. unfold in_force.
    destruct (truthy_str deployment_id); intros H;
      apply andb_true_iff in H as [Hrest Hexp];
      apply Z.ltb_lt in Hexp;
      rewrite Hrest; apply Z.ltb_lt; lia. }
  split; [exact Hle |].
  intros Hnow. apply Z.ltb_ge in Hnow. apply Z.ltb_ge. lia.
Qed.

(** After the global scale cooldown has run out it stays out. *)
Lemma check_cooldown_only_expires_after_an_hour :
  select_count_cooldowns (Fixtures.t0 + 2 * one_hour) "scale" None
    (conn Fixtures.after_global_cooldown)
  <= select_count_cooldowns (Fixtures.t0 + one_hour) "scale" None
       (conn Fixtures.after_global_cooldown).
Proof.
  refine (proj1 (check_cooldown_only_expires (Fixtures.t0 + one_hour)
                   (Fixtures.t0 + 2 * one_hour) "scale" None
                   (conn Fixtures.after_global_cooldown) _)).
  apply Z.leb_le. reflexivity.
Defined.

(** * Replica counts that are no integers *)

